(** * pdf_extractor.py: a shallow embedding and its verified properties

    The script compares two text-layer PDF extractors (PyMuPDF and
    pdfplumber; an OCR extractor is present but not called by default),
    writes one text file per successful non-empty method and one summary
    table.

    Conventions of the embedding.
    - A Python [str] is a list of Unicode code points, so that [len],
      slicing and [str.strip] count what Python counts.  String literals
      of the script are written as they appear there and decoded from
      UTF-8 by [U].
    - The third-party libraries (fitz, pdfplumber, pdf2image, pytesseract),
      the directory scan and the clock are inputs: they are the fields of
      [Env].  A library call either returns a value or raises.
    - [exn] ranges over the instances of Python's [Exception] class, the
      ones an [except Exception] clause catches.
    - Statements run in a state-and-exception monad in which the state
      survives a raised exception, as a mutated dict does in Python.
    - Creating a directory and opening a file for writing are requests
      to the file system, which grants them or raises (the field
      [fs_reply] of [World]).  Writing a string to an open file raises
      [UnicodeEncodeError] when the string holds a surrogate code point,
      and the file then keeps what was written before.  What was done is
      recorded as events.
    - Standard output takes every line, its encoding being the choice
      of the environment: [print] returns.  An open file takes every
      string that can be encoded.  Leaving the [with] block of
      pdfplumber raises nothing. *)

From Stdlib Require Import String Ascii NArith Decimal DecimalNat.
From stdpp Require Import base list gmap.

Local Open Scope N_scope.
Local Open Scope nat_scope.
Local Open Scope list_scope.

(** ** Python strings *)

Abbreviation char := N.
Abbreviation str := (list char).

(** Decoding of a UTF-8 byte sequence into code points; used for the
    literals of the script only. *)
Fixpoint utf8_decode (bs : list N) : str :=
  match bs with
  | [] => []
  | b0 :: r0 =>
    if (b0 <? 128)%N then b0 :: utf8_decode r0
    else match r0 with
      | [] => [b0]
      | b1 :: r1 =>
        if (b0 <? 224)%N
        then ((b0 mod 32) * 64 + b1 mod 64)%N :: utf8_decode r1
        else match r1 with
          | [] => [b0; b1]
          | b2 :: r2 =>
            if (b0 <? 240)%N
            then ((b0 mod 16) * 4096 + (b1 mod 64) * 64 + b2 mod 64)%N
                   :: utf8_decode r2
            else match r2 with
              | [] => [b0; b1; b2]
              | b3 :: r3 =>
                ((b0 mod 8) * 262144 + (b1 mod 64) * 4096
                 + (b2 mod 64) * 64 + b3 mod 64)%N :: utf8_decode r3
              end
          end
      end
  end.

Definition U (s : string) : str :=
  utf8_decode (map N_of_ascii (list_ascii_of_string s)).
Arguments U : simpl never.

Definition len (s : str) : nat := length s.

(** [sep.join(parts)] *)
Fixpoint join (sep : str) (parts : list str) : str :=
  match parts with
  | [] => []
  | [p] => p
  | p :: rest => p ++ sep ++ join sep rest
  end.

(** [str.isspace] on one code point: the characters CPython treats as
    whitespace. *)
Definition isspace (c : char) : bool :=
  ((9 <=? c) && (c <=? 13) || (28 <=? c) && (c <=? 32)
   || (c =? 133) || (c =? 160) || (c =? 5760)
   || (8192 <=? c) && (c <=? 8202)
   || (c =? 8232) || (c =? 8233) || (c =? 8239) || (c =? 8287)
   || (c =? 12288))%N.

Fixpoint lstrip (s : str) : str :=
  match s with
  | c :: s' => if isspace c then lstrip s' else s
  | [] => []
  end.

Definition rstrip (s : str) : str := reverse (lstrip (reverse s)).

(** [s.strip()] *)
Definition strip (s : str) : str := rstrip (lstrip s).

(** Truth value of a string in a condition. *)
Definition truthy (s : str) : bool :=
  match s with [] => false | _ :: _ => true end.

Fixpoint startswith (s pre : str) : bool :=
  match pre, s with
  | [], _ => true
  | p :: pre', c :: s' => (p =? c)%N && startswith s' pre'
  | _ :: _, [] => false
  end.

(** [s.replace(old, new)] for a non-empty [old]: a left-to-right scan
    that replaces every non-overlapping occurrence.  [skip] counts the
    characters of a matched occurrence still to be passed over. *)
Fixpoint replace_from (old new : str) (skip : nat) (s : str) : str :=
  match s with
  | [] => []
  | c :: s' =>
    match skip with
    | S k => replace_from old new k s'
    | O =>
      if startswith s old
      then new ++ replace_from old new (length old - 1) s'
      else c :: replace_from old new 0 s'
    end
  end.

Definition replace (s old new : str) : str := replace_from old new 0 s.

(** [s[:n]] for a non-negative [n] *)
Definition slice_to (n : nat) (s : str) : str := take n s.

(** [c * n] for a one-character string *)
Definition times (c : str) (n : nat) : str := mjoin (replicate n c).

(** Format specifications [<w] and [>w]: pad with spaces up to width
    [w], never truncate. *)
Definition ljust (w : nat) (s : str) : str := s ++ replicate (w - len s) 32%N.
Definition rjust (w : nat) (s : str) : str := replicate (w - len s) 32%N ++ s.

Fixpoint digits_of_uint (d : Decimal.uint) : str :=
  match d with
  | Nil => []
  | D0 d' => 48%N :: digits_of_uint d'
  | D1 d' => 49%N :: digits_of_uint d'
  | D2 d' => 50%N :: digits_of_uint d'
  | D3 d' => 51%N :: digits_of_uint d'
  | D4 d' => 52%N :: digits_of_uint d'
  | D5 d' => 53%N :: digits_of_uint d'
  | D6 d' => 54%N :: digits_of_uint d'
  | D7 d' => 55%N :: digits_of_uint d'
  | D8 d' => 56%N :: digits_of_uint d'
  | D9 d' => 57%N :: digits_of_uint d'
  end.

(** [str(n)] for a non-negative int *)
Definition str_of_int (n : nat) : str := digits_of_uint (Nat.to_uint n).

(** Insertion of the thousands separator, on the reversed digits. *)
Fixpoint group_rev (k : nat) (ds : str) : str :=
  match ds with
  | [] => []
  | d :: ds' =>
    match k with
    | O => 44%N :: d :: group_rev 2 ds'
    | S k' => d :: group_rev k' ds'
    end
  end.

(** Format specification [,] on a non-negative int *)
Definition format_comma (n : nat) : str :=
  reverse (group_rev 3 (reverse (str_of_int n))).

(** ** Containers of the script *)

(** [enumerate(xs)] *)
Fixpoint enumerate_from {A : Type} (start : nat) (xs : list A) : list (nat * A) :=
  match xs with
  | [] => []
  | x :: xs' => (start, x) :: enumerate_from (S start) xs'
  end.

Definition enumerate {A : Type} (xs : list A) : list (nat * A) :=
  enumerate_from 0 xs.

(** A [dict] with string keys.  Python dicts keep insertion order and the
    script iterates over them, so the order is part of the value. *)
Abbreviation dict V := (list (str * V)).

(** [d[k] = v]: a present key keeps its position, a new key goes last. *)
Fixpoint dict_set {V : Type} (d : dict V) (k : str) (v : V) : dict V :=
  match d with
  | [] => [(k, v)]
  | (k', v') :: d' =>
    if decide (k' = k) then (k', v) :: d' else (k', v') :: dict_set d' k v
  end.

(** [d.get(k)] *)
Fixpoint dict_get {V : Type} (d : dict V) (k : str) : option V :=
  match d with
  | [] => None
  | (k', v') :: d' => if decide (k' = k) then Some v' else dict_get d' k
  end.

Definition keys {V : Type} (d : dict V) : list str := d.*1.

(** [pathlib.Path] as the list of its components. *)
Abbreviation Path := (list str).

(** [p / name] *)
Definition Path_div (p : Path) (name : str) : Path := p ++ [name].

(** [p.name] *)
Definition Path_name (p : Path) : str := default [] (last p).

(** [str(p)] with the separator of the platform. *)
Definition Path_str (sep : str) (p : Path) : str := join sep p.

(** ** Exceptions and the monad of statements *)

Inductive exc_class : Type := ImportError | OtherException.

(** An exception object: its class as far as the [except] clauses of the
    script tell classes apart, and [str(e)]. *)
Record exn : Type := Exn { exn_class : exc_class; exn_str : str }.

Inductive outcome (A : Type) : Type :=
| Return (a : A)
| Raise (e : exn).
Arguments Return {A} a.
Arguments Raise {A} e.

Definition M (S A : Type) : Type := S -> outcome A * S.

Definition ret {S A : Type} (a : A) : M S A := fun s => (Return a, s).

Definition bind {S A B : Type} (m : M S A) (k : A -> M S B) : M S B :=
  fun s =>
    match m s with
    | (Return a, s') => k a s'
    | (Raise e, s') => (Raise e, s')
    end.

Declare Scope stmt_scope.
Delimit Scope stmt_scope with stmt.
Notation "x <- c ;; k" := (bind c (fun x => k))
  (at level 100, c at next level, right associativity) : stmt_scope.
Notation "c ;; k" := (bind c (fun _ => k))
  (at level 100, right associativity) : stmt_scope.
Local Open Scope stmt_scope.

(** A call into a library. *)
Definition call {S A : Type} (o : outcome A) : M S A := fun s => (o, s).

Definition get {S : Type} : M S S := fun s => (Return s, s).
Definition modify {S : Type} (f : S -> S) : M S unit := fun s => (Return tt, f s).

(** [try: body  except Exception as e: handler e] *)
Definition try_except {S A : Type} (body : M S A) (handler : exn -> M S A) : M S A :=
  fun s =>
    match body s with
    | (Return a, s') => (Return a, s')
    | (Raise e, s') => handler e s'
    end.

(** [for x in xs: body x] *)
Fixpoint for_each {S A : Type} (xs : list A) (body : A -> M S unit) : M S unit :=
  match xs with
  | [] => ret tt
  | x :: xs' => body x ;; for_each xs' body
  end.

(** A loop that rebinds a local variable [acc] at each turn. *)
Fixpoint for_fold {S A B : Type} (xs : list A) (acc : B) (body : B -> A -> M S B)
  : M S B :=
  match xs with
  | [] => ret acc
  | x :: xs' => acc' <- body acc x ;; for_fold xs' acc' body
  end.

(** ** Data model *)

(** A table found by pdfplumber: rows of cells, a cell may be [None]. *)
Definition table : Type := list (list (option str)).

(** An entry of [result["pages"]]; [table_count] is present in the
    entries of pdfplumber only. *)
Record PageEntry : Type := {
  page : nat;
  page_text : str;
  char_count : nat;
  table_count : option nat
}.

(** An entry of [result["tables"]]. *)
Record TableEntry : Type := {
  tables_page : nat;
  tables_found : list table
}.

(** The dict every extractor returns.  [tables] and [note] are [None]
    for the extractors whose dict has no such key. *)
Record ExtractionResult : Type := {
  method : str;
  text : str;
  pages : list PageEntry;
  tables : option (list TableEntry);
  success : bool;
  error : option str;
  note : option str
}.

(** The local variables of an extractor. *)
Record frame : Type := { result : ExtractionResult; all_text : list str }.

Definition set_all_text (l : list str) : M frame unit :=
  modify (fun fr => {| result := result fr; all_text := l |}).

Definition all_text_append (t : str) : M frame unit :=
  modify (fun fr => {| result := result fr; all_text := all_text fr ++ [t] |}).

Definition update_result (f : ExtractionResult -> ExtractionResult) : M frame unit :=
  modify (fun fr => {| result := f (result fr); all_text := all_text fr |}).

Definition pages_append (e : PageEntry) : M frame unit :=
  update_result (fun r =>
    {| method := method r; text := text r; pages := pages r ++ [e];
       tables := tables r; success := success r; error := error r;
       note := note r |}).

Definition tables_append (e : TableEntry) : M frame unit :=
  update_result (fun r =>
    {| method := method r; text := text r; pages := pages r;
       tables := (fun l => l ++ [e]) <$> tables r;
       success := success r; error := error r; note := note r |}).

Definition set_text (t : str) : M frame unit :=
  update_result (fun r =>
    {| method := method r; text := t; pages := pages r;
       tables := tables r; success := success r; error := error r;
       note := note r |}).

Definition set_success (b : bool) : M frame unit :=
  update_result (fun r =>
    {| method := method r; text := text r; pages := pages r;
       tables := tables r; success := b; error := error r;
       note := note r |}).

Definition set_error (msg : str) : M frame unit :=
  update_result (fun r =>
    {| method := method r; text := text r; pages := pages r;
       tables := tables r; success := success r; error := Some msg;
       note := note r |}).

(** [return result] at the end of an extractor. *)
Definition return_result (body : M frame unit) (r0 : ExtractionResult)
  : outcome ExtractionResult :=
  match body {| result := r0; all_text := [] |} with
  | (Return _, fr) => Return (result fr)
  | (Raise e, _) => Raise e
  end.

(** ** The environment: libraries, directory scan, clock *)

(** A document opened by [fitz.open]: for each page, the outcome of
    loading it and calling [page.get_text("text")] (either failure
    leaves the extractor in the same state), and the outcome of
    [doc.close()]. *)
Record fitz_doc : Type := {
  fitz_pages : list (outcome str);
  fitz_close : outcome unit
}.

(** A page of pdfplumber: the outcomes of [page.extract_text()], which
    may return [None], and of [page.extract_tables()]. *)
Record plumber_page : Type := {
  extract_text : outcome (option str);
  extract_tables : outcome (list table)
}.

(** A rasterized page, as far as the script sees it: a handle. *)
Definition image : Type := N.

Record Env : Type := {
  os_sep : str;
  PDF_DIR_exists : bool;
  (** names matched by [PDF_DIR.glob("*.pdf")], in the order of the scan *)
  PDF_DIR_glob : list str;
  fitz_open : Path -> outcome fitz_doc;
  (** [pdfplumber.open(path)] followed by the access to [pdf.pages] *)
  pdfplumber_open : Path -> outcome (list plumber_page);
  import_pytesseract : outcome unit;
  import_pdf2image : outcome unit;
  os_path_exists : str -> bool;
  (** value of [pytesseract.pytesseract.tesseract_cmd] at the call *)
  tesseract_cmd : str;
  convert_from_path : Path -> outcome (list image);
  (** [image_to_string(image, lang, config)] under a given [tesseract_cmd] *)
  image_to_string : str -> image -> str -> str -> outcome str;
  (** [datetime.now().isoformat()] at the n-th reading of the clock *)
  isoformat_now : nat -> str
}.

Definition NL : str := [10%N].

Definition OUTPUT_DIR : Path := [U "추출결과"].
Definition PDF_DIR : Path := [U "참고자료"].

(** ** The extractors *)

(** [x or ""] for an [x] that is a string or [None]. *)
Definition or_empty (x : option str) : str :=
  match x with
  | Some t => if truthy t then t else []
  | None => []
  end.

Definition extract_with_pymupdf (env : Env) (pdf_path : Path)
  : outcome ExtractionResult :=
  return_result
    (try_except
       (doc <- call (fitz_open env pdf_path) ;;
        set_all_text [] ;;
        for_each (enumerate (fitz_pages doc)) (fun '(page_num, page) =>
          page_text <- call page ;;
          all_text_append page_text ;;
          pages_append {| page := page_num + 1; page_text := page_text;
                          char_count := len page_text;
                          table_count := None |}) ;;
        fr <- get ;;
        set_text (join NL (all_text fr)) ;;
        set_success true ;;
        call (fitz_close doc))
       (fun e => set_error (exn_str e)))
    {| method := U "PyMuPDF (직접 추출)"; text := []; pages := [];
       tables := None; success := false; error := None; note := None |}.

Definition extract_with_pdfplumber (env : Env) (pdf_path : Path)
  : outcome ExtractionResult :=
  return_result
    (try_except
       (pdf_pages <- call (pdfplumber_open env pdf_path) ;;
        set_all_text [] ;;
        for_each (enumerate pdf_pages) (fun '(page_num, page) =>
          extracted <- call (extract_text page) ;;
          let page_text := or_empty extracted in
          all_text_append page_text ;;
          tables <- call (extract_tables page) ;;
          pages_append {| page := page_num + 1; page_text := page_text;
                          char_count := len page_text;
                          table_count := Some (length tables) |} ;;
          match tables with
          | [] => ret tt
          | _ :: _ =>
            tables_append {| tables_page := page_num + 1;
                             tables_found := tables |}
          end) ;;
        fr <- get ;;
        set_text (join NL (all_text fr)) ;;
        set_success true)
       (fun e => set_error (exn_str e)))
    {| method := U "pdfplumber (직접 추출)"; text := []; pages := [];
       tables := Some []; success := false; error := None; note := None |}.

Definition tesseract_paths : list str :=
  [U "C:\Program Files\Tesseract-OCR\tesseract.exe";
   U "C:\Program Files (x86)\Tesseract-OCR\tesseract.exe"].

(** The loop that sets [tesseract_cmd] to the first existing candidate
    and breaks; [cmd] is the value in force. *)
Fixpoint select_tesseract (exists_ : str -> bool) (cmd : str) (paths : list str)
  : str :=
  match paths with
  | [] => cmd
  | path :: paths' =>
    if exists_ path then path else select_tesseract exists_ cmd paths'
  end.

Definition extract_with_ocr (env : Env) (pdf_path : Path)
  : outcome ExtractionResult :=
  return_result
    (try_except
       (call (import_pytesseract env) ;;
        call (import_pdf2image env) ;;
        let cmd :=
          select_tesseract (os_path_exists env) (tesseract_cmd env)
            tesseract_paths in
        converted <-
          try_except
            (images <- call (convert_from_path env pdf_path) ;;
             ret (Some images))
            (fun e =>
               set_error (U "PDF를 이미지로 변환 실패 (poppler 필요): "
                          ++ exn_str e) ;;
               ret None) ;;
        match converted with
        | None => ret tt
        | Some images =>
          set_all_text [] ;;
          for_each (enumerate images) (fun '(page_num, image) =>
            page_text <-
              call (image_to_string env cmd image (U "kor+eng+rus")
                      (U "--psm 6")) ;;
            all_text_append page_text ;;
            pages_append {| page := page_num + 1; page_text := page_text;
                            char_count := len page_text;
                            table_count := None |}) ;;
          fr <- get ;;
          set_text (join NL (all_text fr)) ;;
          set_success true
        end)
       (fun e =>
          match exn_class e with
          | ImportError =>
            set_error (U "필요한 라이브러리가 없습니다: " ++ exn_str e)
          | OtherException => set_error (exn_str e)
          end))
    {| method := U "OCR (pytesseract)"; text := []; pages := [];
       tables := None; success := false; error := None;
       note := Some (U "Tesseract OCR이 설치되어 있어야 합니다.") |}.

(** ** Effects on the outside world *)

Inductive event : Type :=
| Print (line : str)                      (* print(line) *)
| Mkdir (p : Path)                        (* p.mkdir(exist_ok=True) *)
| WriteFile (p : Path) (content : str).   (* p opened with "w", then closed
                                             holding content *)

(** What the script asks of the file system. *)
Inductive fs_request : Type :=
| Request_mkdir (p : Path)                (* p.mkdir(exist_ok=True) *)
| Request_open_w (p : Path).              (* open(p, "w", encoding="utf-8") *)

(** The run so far, how many times the clock has been read, and the
    answer of the file system to a request made after the events so
    far: either it grants the request or the call raises, as [mkdir]
    does with [FileExistsError] on the path of a regular file. *)
Record World : Type :=
  { events : list event;
    clock : nat;
    fs_reply : list event -> fs_request -> outcome unit }.

Definition emit (ev : event) : M World unit :=
  modify (fun w => {| events := events w ++ [ev]; clock := clock w;
                      fs_reply := fs_reply w |}).

Definition ask (req : fs_request) : M World unit :=
  fun w => (fs_reply w (events w) req, w).

Definition print (line : str) : M World unit := emit (Print line).

Definition mkdir_exist_ok (p : Path) : M World unit :=
  ask (Request_mkdir p) ;; emit (Mkdir p).

Definition now_isoformat (env : Env) : M World str :=
  fun w => (Return (isoformat_now env (clock w)),
            {| events := events w; clock := S (clock w);
               fs_reply := fs_reply w |}).

(** *** Text files

    A [str] may hold surrogate code points (a file name with bytes
    that are not UTF-8 reaches the script as such a [str]); the codec
    ['utf-8'] refuses them. *)
Definition surrogate (c : char) : bool := (55296 <=? c)%N && (c <=? 57343)%N.

Definition encodable (s : str) : bool := forallb (fun c => negb (surrogate c)) s.

Fixpoint first_surrogate (s : str) : nat :=
  match s with
  | [] => 0
  | c :: s' => if surrogate c then 0 else S (first_surrogate s')
  end.

Fixpoint surrogate_run (s : str) : nat :=
  match s with
  | [] => 0
  | c :: s' => if surrogate c then S (surrogate_run s') else 0
  end.

Definition hex_digit (n : N) : char :=
  (if n <? 10 then 48 + n else 87 + n)%N.

Definition hex4 (c : char) : str :=
  [ hex_digit (c / 4096 mod 16); hex_digit (c / 256 mod 16);
    hex_digit (c / 16 mod 16); hex_digit (c mod 16) ]%N.

(** The [UnicodeEncodeError] of [s.encode('utf-8')]. *)
Definition unicode_encode_error (s : str) : exn :=
  let i := first_surrogate s in
  let run := surrogate_run (drop i s) in
  Exn OtherException
    (if (run <=? 1)%nat
     then U "'utf-8' codec can't encode character '\u" ++ hex4 (nth i s 0%N)
          ++ U "' in position " ++ str_of_int i
          ++ U ": surrogates not allowed"
     else U "'utf-8' codec can't encode characters in position "
          ++ str_of_int i ++ U "-" ++ str_of_int (i + run - 1)
          ++ U ": surrogates not allowed").

(** The body of a [with open(p, "w", encoding="utf-8") as f:] block
    runs in the world outside and on what [f] holds so far. *)
Record Block : Type := { outside : World; buffer : str }.

(** [f.write(s)] *)
Definition f_write (s : str) : M Block unit :=
  fun b =>
    if encodable s
    then (Return tt, {| outside := outside b; buffer := buffer b ++ s |})
    else (Raise (unicode_encode_error s), b).

(** A statement of the block that does not touch [f]. *)
Definition in_block {A : Type} (m : M World A) : M Block A :=
  fun b =>
    match m (outside b) with
    | (o, w') => (o, {| outside := w'; buffer := buffer b |})
    end.

(** [with open(p, "w", encoding="utf-8") as f: body].  If the file
    cannot be opened the block is not entered.  Otherwise the file is
    closed when the block is left, also by an exception, and holds what
    was written until then. *)
Definition with_open_w (p : Path) (body : M Block unit) : M World unit :=
  ask (Request_open_w p) ;;
  fun w =>
    match body {| outside := w; buffer := [] |} with
    | (o, b) =>
      (o, {| events := events (outside b) ++ [WriteFile p (buffer b)];
             clock := clock (outside b);
             fs_reply := fs_reply (outside b) |})
    end.

(** The file system a run leaves behind. *)
Record FS : Type := { dirs : gset Path; files : gmap Path str }.

Definition apply_event (fs : FS) (ev : event) : FS :=
  match ev with
  | Print _ => fs
  | Mkdir p => {| dirs := {[p]} ∪ dirs fs; files := files fs |}
  | WriteFile p c => {| dirs := dirs fs; files := <[p := c]> (files fs) |}
  end.

Definition fs_after (fs : FS) (evs : list event) : FS :=
  foldl apply_event fs evs.

(** The lines printed and the files opened for writing, in order. *)
Definition stdout (evs : list event) : list str :=
  omap (fun ev => match ev with Print l => Some l | _ => None end) evs.

Definition written (evs : list event) : list Path :=
  omap (fun ev => match ev with WriteFile p _ => Some p | _ => None end) evs.

Definition created_dirs (evs : list event) : list Path :=
  omap (fun ev => match ev with Mkdir p => Some p | _ => None end) evs.

(** ** Comparator *)

(** The [status] shown for a result; [None] is formatted as Python
    formats it. *)
Definition status_of (r : ExtractionResult) : str :=
  if success r then U "✓ 성공"
  else U "✗ 실패: " ++ default (U "None") (error r).

Definition compare_methods (env : Env) (pdf_path : Path)
  : M World (dict ExtractionResult) :=
  print (NL ++ times (U "=") 60) ;;
  print (U "파일: " ++ Path_name pdf_path) ;;
  print (times (U "=") 60) ;;
  let results : dict ExtractionResult := [] in
  print (U "  [1/3] PyMuPDF로 추출 중...") ;;
  r <- call (extract_with_pymupdf env pdf_path) ;;
  let results := dict_set results (U "pymupdf") r in
  print (U "  [2/3] pdfplumber로 추출 중...") ;;
  r <- call (extract_with_pdfplumber env pdf_path) ;;
  let results := dict_set results (U "pdfplumber") r in
  print (U "  [3/3] OCR 추출은 별도 확인 필요 (Tesseract/poppler 필요)") ;;
  print (NL ++ U "  결과 요약:") ;;
  for_each results (fun '(method_name, result) =>
    let char_count := len (text result) in
    let status := status_of result in
    print (U "    - " ++ method result ++ U ": " ++ format_comma char_count
           ++ U "자 추출 " ++ status)) ;;
  ret results.

(** ** Persister *)

Definition output_name (base_name method_name : str) : str :=
  base_name ++ U "_" ++ method_name ++ U ".txt".

Definition save_results (env : Env) (pdf_name : str)
  (results : dict ExtractionResult) (output_dir : Path) : M World unit :=
  mkdir_exist_ok output_dir ;;
  let base_name := replace pdf_name (U ".pdf") [] in
  for_each results (fun '(method_name, result) =>
    if success result && truthy (strip (text result)) then
      let output_file := Path_div output_dir (output_name base_name method_name) in
      with_open_w output_file
        (f_write (U "# 추출 방법: " ++ method result ++ NL) ;;
         f_write (U "# 원본 파일: " ++ pdf_name ++ NL) ;;
         now <- in_block (now_isoformat env) ;;
         f_write (U "# 추출 시간: " ++ now ++ NL) ;;
         f_write (U "# 총 문자 수: " ++ format_comma (len (text result))
                  ++ U "자" ++ NL) ;;
         f_write (U "# 총 페이지: " ++ str_of_int (length (pages result))
                  ++ U "페이지" ++ NL) ;;
         f_write (times (U "=") 60 ++ NL ++ NL) ;;
         f_write (text result)) ;;
      print (U "    저장됨: " ++ Path_name output_file)
    else ret tt).

(** ** Driver *)

(** The text of a method in a file's results, as the summary reads it:
    [results.get(m, {}).get("text", "")]. *)
Definition text_of (results : dict ExtractionResult) (m : str) : str :=
  match dict_get results m with
  | Some r => text r
  | None => []
  end.

Definition short_name (pdf_name : str) : str :=
  if (50 <? len pdf_name)%nat then slice_to 47 pdf_name ++ U "..."
  else pdf_name.

(** One row of the summary table. *)
Definition summary_row (pdf_name : str) (results : dict ExtractionResult) : str :=
  let pymupdf_chars := len (text_of results (U "pymupdf")) in
  let pdfplumber_chars := len (text_of results (U "pdfplumber")) in
  ljust 50 (short_name pdf_name) ++ U " "
  ++ rjust 12 (format_comma pymupdf_chars) ++ U " "
  ++ rjust 12 (format_comma pdfplumber_chars) ++ NL.

Definition summary_file : Path := Path_div OUTPUT_DIR (U "비교_요약.txt").

Definition main (env : Env) : M World unit :=
  print (NL ++ times (U "=") 60) ;;
  print (U "PDF 텍스트 추출기 - 방법 비교") ;;
  print (times (U "=") 60) ;;
  if negb (PDF_DIR_exists env) then
    print (U "오류: '" ++ Path_str (os_sep env) PDF_DIR ++ U "' 폴더가 없습니다.")
  else
    let pdf_files := map (Path_div PDF_DIR) (PDF_DIR_glob env) in
    match pdf_files with
    | [] =>
      print (U "오류: '" ++ Path_str (os_sep env) PDF_DIR
             ++ U "' 폴더에 PDF 파일이 없습니다.")
    | _ :: _ =>
      print (NL ++ U "총 " ++ str_of_int (length pdf_files)
             ++ U "개의 PDF 파일 발견") ;;
      mkdir_exist_ok OUTPUT_DIR ;;
      all_results <-
        for_fold pdf_files [] (fun all_results pdf_file =>
          results <- compare_methods env pdf_file ;;
          let all_results := dict_set all_results (Path_name pdf_file) results in
          save_results env (Path_name pdf_file) results OUTPUT_DIR ;;
          ret all_results) ;;
      print (NL ++ times (U "=") 60) ;;
      print (U "최종 요약") ;;
      print (times (U "=") 60) ;;
      with_open_w summary_file
        (f_write (U "PDF 텍스트 추출 결과 비교" ++ NL) ;;
         now <- in_block (now_isoformat env) ;;
         f_write (U "추출 시간: " ++ now ++ NL) ;;
         f_write (times (U "=") 80 ++ NL ++ NL) ;;
         f_write (ljust 50 (U "파일명") ++ U " " ++ rjust 12 (U "PyMuPDF")
                  ++ U " " ++ rjust 12 (U "pdfplumber") ++ NL) ;;
         f_write (times (U "-") 80 ++ NL) ;;
         for_each all_results (fun '(pdf_name, results) =>
           f_write (summary_row pdf_name results)) ;;
         f_write (NL ++ NL ++ U "주의사항:" ++ NL) ;;
         f_write (U "- 문자 수가 0이면 해당 PDF에 텍스트 레이어가 없거나 이미지 PDF입니다."
                  ++ NL) ;;
         f_write (U "- 이미지 PDF의 경우 OCR 방법을 사용해야 합니다." ++ NL) ;;
         f_write (U "- OCR 사용을 위해서는 Tesseract와 poppler 설치가 필요합니다."
                  ++ NL)) ;;
      print (NL ++ U "결과가 '" ++ Path_str (os_sep env) OUTPUT_DIR
             ++ U "' 폴더에 저장되었습니다.") ;;
      print (U "요약 파일: " ++ Path_str (os_sep env) summary_file)
    end.

(** ** What an extraction reads

    The definitions below describe a run of an extractor from the
    library's side: the values read before the first exception, that
    exception, and the entries recorded for the values read.  The
    extractors are proved to return the results they describe. *)

Fixpoint read_ok {A B : Type} (read : A -> outcome B) (xs : list A) : list B :=
  match xs with
  | [] => []
  | x :: xs' =>
    match read x with
    | Return b => b :: read_ok read xs'
    | Raise _ => []
    end
  end.

Fixpoint first_raise {A B : Type} (read : A -> outcome B) (xs : list A)
  : option exn :=
  match xs with
  | [] => None
  | x :: xs' =>
    match read x with
    | Return _ => first_raise read xs'
    | Raise e => Some e
    end
  end.

Fixpoint entries_from {B : Type} (mk : nat -> B -> PageEntry) (start : nat)
  (ys : list B) : list PageEntry :=
  match ys with
  | [] => []
  | y :: ys' => mk start y :: entries_from mk (S start) ys'
  end.

Definition text_entry (page_num : nat) (t : str) : PageEntry :=
  {| page := page_num + 1; page_text := t; char_count := len t;
     table_count := None |}.

(** Both reads of a pdfplumber page, in the order of the loop body. *)
Definition plumber_read (pg : plumber_page) : outcome (str * list table) :=
  match extract_text pg with
  | Raise e => Raise e
  | Return x =>
    match extract_tables pg with
    | Raise e => Raise e
    | Return tbs => Return (or_empty x, tbs)
    end
  end.

Definition plumber_entry (page_num : nat) (rd : str * list table) : PageEntry :=
  {| page := page_num + 1; page_text := rd.1; char_count := len rd.1;
     table_count := Some (length rd.2) |}.

Fixpoint table_entries_from (start : nat) (rds : list (str * list table))
  : list TableEntry :=
  match rds with
  | [] => []
  | (_, []) :: rds' => table_entries_from (S start) rds'
  | (_, tbs) :: rds' =>
    {| tables_page := start + 1; tables_found := tbs |}
      :: table_entries_from (S start) rds'
  end.

(** The exception raised while opening or reading, if any. *)
Definition pymupdf_read_error (env : Env) (pdf_path : Path) : option exn :=
  match fitz_open env pdf_path with
  | Raise e => Some e
  | Return doc => first_raise id (fitz_pages doc)
  end.

Definition pdfplumber_read_error (env : Env) (pdf_path : Path) : option exn :=
  match pdfplumber_open env pdf_path with
  | Raise e => Some e
  | Return pgs => first_raise plumber_read pgs
  end.

(** The dict [extract_with_pymupdf] returns. *)
Definition pymupdf_result (env : Env) (pdf_path : Path) : ExtractionResult :=
  let texts :=
    match fitz_open env pdf_path with
    | Raise _ => []
    | Return doc => read_ok id (fitz_pages doc)
    end in
  {| method := U "PyMuPDF (직접 추출)";
     text := match pymupdf_read_error env pdf_path with
             | None => join NL texts
             | Some _ => []
             end;
     pages := entries_from text_entry 0 texts;
     tables := None;
     success := bool_decide (pymupdf_read_error env pdf_path = None);
     error := match pymupdf_read_error env pdf_path with
              | Some e => Some (exn_str e)
              | None =>
                match fitz_open env pdf_path with
                | Return doc =>
                  match fitz_close doc with
                  | Raise e => Some (exn_str e)
                  | Return _ => None
                  end
                | Raise _ => None
                end
              end;
     note := None |}.

(** The dict [extract_with_pdfplumber] returns. *)
Definition pdfplumber_result (env : Env) (pdf_path : Path) : ExtractionResult :=
  let reads :=
    match pdfplumber_open env pdf_path with
    | Raise _ => []
    | Return pgs => read_ok plumber_read pgs
    end in
  {| method := U "pdfplumber (직접 추출)";
     text := match pdfplumber_read_error env pdf_path with
             | None => join NL reads.*1
             | Some _ => []
             end;
     pages := entries_from plumber_entry 0 reads;
     tables := Some (table_entries_from 0 reads);
     success := bool_decide (pdfplumber_read_error env pdf_path = None);
     error := exn_str <$> pdfplumber_read_error env pdf_path;
     note := None |}.

(** The OCR call of the loop of [extract_with_ocr], on one image. *)
Definition ocr_read (env : Env) (img : image) : outcome str :=
  image_to_string env
    (select_tesseract (os_path_exists env) (tesseract_cmd env) tesseract_paths)
    img (U "kor+eng+rus") (U "--psm 6").

(** The message the outer handlers of [extract_with_ocr] record. *)
Definition ocr_handler_message (e : exn) : str :=
  match exn_class e with
  | ImportError => U "필요한 라이브러리가 없습니다: " ++ exn_str e
  | OtherException => exn_str e
  end.

(** The dict [extract_with_ocr] returns. *)
Definition ocr_result (env : Env) (pdf_path : Path) : ExtractionResult :=
  let finish (txt : str) (ps : list PageEntry) (ok : bool) (err : option str) :=
    {| method := U "OCR (pytesseract)"; text := txt; pages := ps;
       tables := None; success := ok; error := err;
       note := Some (U "Tesseract OCR이 설치되어 있어야 합니다.") |} in
  match import_pytesseract env with
  | Raise e => finish [] [] false (Some (ocr_handler_message e))
  | Return _ =>
    match import_pdf2image env with
    | Raise e => finish [] [] false (Some (ocr_handler_message e))
    | Return _ =>
      match convert_from_path env pdf_path with
      | Raise e =>
        finish [] [] false
          (Some (U "PDF를 이미지로 변환 실패 (poppler 필요): " ++ exn_str e))
      | Return images =>
        let texts := read_ok (ocr_read env) images in
        match first_raise (ocr_read env) images with
        | Some e =>
          finish [] (entries_from text_entry 0 texts) false
            (Some (ocr_handler_message e))
        | None =>
          finish (join NL texts) (entries_from text_entry 0 texts) true None
        end
      end
    end
  end.

(** ** Runs in the outside world *)

(** Started in [w], the statement [m] returns [a] after the events
    [new] and [ticks] readings of the clock. *)
Definition runs {A : Type} (m : M World A) (w : World) (a : A)
  (new : list event) (ticks : nat) : Prop :=
  m w = (Return a, {| events := events w ++ new; clock := clock w + ticks;
                      fs_reply := fs_reply w |}).

(** The same for a statement of a [with open] block started in [b]: it
    returns [a] after [ticks] readings of the clock, having written
    [content], and does nothing else. *)
Definition block_runs {A : Type} (m : M Block A) (b : Block) (a : A)
  (ticks : nat) (content : str) : Prop :=
  m b = (Return a,
         {| outside := {| events := events (outside b);
                          clock := clock (outside b) + ticks;
                          fs_reply := fs_reply (outside b) |};
            buffer := buffer b ++ content |}).

(** The file system lets the script create [dir] and open for writing
    every file of [dir], whenever it asks. *)
Definition fs_grants (w : World) (dir : Path) : Prop :=
  (forall evs, fs_reply w evs (Request_mkdir dir) = Return tt)
  /\ forall evs name,
       fs_reply w evs (Request_open_w (Path_div dir name)) = Return tt.

(** Whatever its outcome, the statement [m] only adds events, and all
    of them satisfy [ok]. *)
Definition confined {A : Type} (ok : event -> Prop) (m : M World A) : Prop :=
  forall w, exists new, events (m w).2 = events w ++ new /\ Forall ok new.

(** Whatever its outcome, a statement of a block adds no event. *)
Definition quiet {A : Type} (m : M Block A) : Prop :=
  forall b, events (outside (m b).2) = events (outside b).

(** An event that stays within the output directory: a line printed,
    that directory created, or a file of it written. *)
Definition in_output_dir (ev : event) : Prop :=
  match ev with
  | Print _ => True
  | Mkdir p => p = OUTPUT_DIR
  | WriteFile p _ => exists name, p = Path_div OUTPUT_DIR name
  end.

(** What the Comparator returns for a file. *)
Definition results_for (env : Env) (pdf_path : Path) : dict ExtractionResult :=
  [ (U "pymupdf", pymupdf_result env pdf_path);
    (U "pdfplumber", pdfplumber_result env pdf_path) ].

(** The condition under which the Persister writes a result. *)
Definition qualifies (r : ExtractionResult) : bool :=
  success r && truthy (strip (text r)).

(** The file the Persister opens for a method of an input file. *)
Definition output_file (output_dir : Path) (pdf_name method_name : str) : Path :=
  Path_div output_dir
    (output_name (replace pdf_name (U ".pdf") []) method_name).

(** The dict [all_results] of the Driver after the files [names],
    starting from [acc]. *)
Definition all_results_after (env : Env) (acc : dict (dict ExtractionResult))
  (names : list str) : dict (dict ExtractionResult) :=
  foldl (fun acc name =>
           dict_set acc name (results_for env (Path_div PDF_DIR name)))
        acc names.

(** ** A sample environment

    Three files are found.  [a.pdf] has a text layer on its first page
    only, and pdfplumber fails on the tables of its second page;
    [b.pdf] cannot be opened by PyMuPDF; [c.pdf] is a two-page scan
    without any text layer.  The OCR libraries are installed but the
    rasterizer fails. *)

Definition sample_exn : exn := Exn OtherException (U "cannot open broken file").

Definition sample_import_exn : exn :=
  Exn ImportError (U "No module named 'pytesseract'").

Definition sample_path (name : string) : Path := Path_div PDF_DIR (U name).

Definition scan_doc : fitz_doc :=
  {| fitz_pages := [Return []; Return []]; fitz_close := Return tt |}.

Definition scan_pages : list plumber_page :=
  [ {| extract_text := Return None; extract_tables := Return [] |};
    {| extract_text := Return (Some []); extract_tables := Return [] |} ].

Definition scan_texts : list str := [[]; []].

Definition scan_reads : list (option str * list table) :=
  [(None, []); (Some [], [])].

Definition sample_env : Env :=
  {| os_sep := U "/";
     PDF_DIR_exists := true;
     PDF_DIR_glob := [U "a.pdf"; U "b.pdf"; U "c.pdf"];
     fitz_open := fun p =>
       if decide (p = sample_path "a.pdf")
       then Return {| fitz_pages := [Return (U "Hello"); Return []];
                      fitz_close := Return tt |}
       else if decide (p = sample_path "c.pdf") then Return scan_doc
       else Raise sample_exn;
     pdfplumber_open := fun p =>
       if decide (p = sample_path "a.pdf")
       then Return [ {| extract_text := Return (Some (U "Hello"));
                        extract_tables := Return [] |};
                     {| extract_text := Return None;
                        extract_tables := Raise sample_exn |} ]
       else if decide (p = sample_path "c.pdf") then Return scan_pages
       else Return [];
     import_pytesseract := Return tt;
     import_pdf2image := Return tt;
     os_path_exists := fun _ => false;
     tesseract_cmd := U "tesseract";
     convert_from_path := fun _ => Raise sample_exn;
     image_to_string := fun _ _ _ _ => Return (U "x");
     isoformat_now := fun n => U "2024-01-01T00:00:0" ++ str_of_int n |}.

(** The same machine without the OCR library. *)
Definition sample_env_no_ocr : Env :=
  {| os_sep := os_sep sample_env;
     PDF_DIR_exists := PDF_DIR_exists sample_env;
     PDF_DIR_glob := PDF_DIR_glob sample_env;
     fitz_open := fitz_open sample_env;
     pdfplumber_open := pdfplumber_open sample_env;
     import_pytesseract := Raise sample_import_exn;
     import_pdf2image := import_pdf2image sample_env;
     os_path_exists := os_path_exists sample_env;
     tesseract_cmd := tesseract_cmd sample_env;
     convert_from_path := convert_from_path sample_env;
     image_to_string := image_to_string sample_env;
     isoformat_now := isoformat_now sample_env |}.

(** The same machine with an empty input directory. *)
Definition sample_env_empty : Env :=
  {| os_sep := os_sep sample_env;
     PDF_DIR_exists := true;
     PDF_DIR_glob := [];
     fitz_open := fitz_open sample_env;
     pdfplumber_open := pdfplumber_open sample_env;
     import_pytesseract := import_pytesseract sample_env;
     import_pdf2image := import_pdf2image sample_env;
     os_path_exists := os_path_exists sample_env;
     tesseract_cmd := tesseract_cmd sample_env;
     convert_from_path := convert_from_path sample_env;
     image_to_string := image_to_string sample_env;
     isoformat_now := isoformat_now sample_env |}.

(** A world in which nothing has happened yet and the file system
    grants every request. *)
Definition world0 : World :=
  {| events := []; clock := 0; fs_reply := fun _ _ => Return tt |}.

(** Two file names for the summary: one of 55 characters, one short. *)
Definition long_pdf_name : str :=
  U "2023_annual_report_of_the_far_east_trade_mission_v2.pdf".

Definition sample_results : dict ExtractionResult :=
  [ (U "pymupdf", pymupdf_result sample_env (sample_path "a.pdf"));
    (U "pdfplumber", pdfplumber_result sample_env (sample_path "a.pdf")) ].

(** The result dict after more entries have been appended to its
    [pages] and [tables]. *)
Definition add_entries (r : ExtractionResult) (es : list PageEntry)
  (ts : list TableEntry) : ExtractionResult :=
  {| method := method r; text := text r; pages := pages r ++ es;
     tables := (fun l => l ++ ts) <$> tables r;
     success := success r; error := error r; note := note r |}.

(** ** Further notions used in the statements *)

(** [old in s] *)
Fixpoint occurs (old s : str) : bool :=
  startswith s old
  || match s with
     | [] => false
     | _ :: s' => occurs old s'
     end.

(** The writes of the summary block, in order: those before the rows,
    the rows, and the notes after them. *)
Definition summary_head (now : str) : list str :=
  [ U "PDF 텍스트 추출 결과 비교" ++ NL;
    U "추출 시간: " ++ now ++ NL;
    times (U "=") 80 ++ NL ++ NL;
    ljust 50 (U "파일명") ++ U " " ++ rjust 12 (U "PyMuPDF") ++ U " "
    ++ rjust 12 (U "pdfplumber") ++ NL;
    times (U "-") 80 ++ NL ].

Definition summary_rows (all_results : dict (dict ExtractionResult)) : list str :=
  map (fun '(pdf_name, results) => summary_row pdf_name results) all_results.

Definition summary_notes : list str :=
  [ NL ++ NL ++ U "주의사항:" ++ NL;
    U "- 문자 수가 0이면 해당 PDF에 텍스트 레이어가 없거나 이미지 PDF입니다." ++ NL;
    U "- 이미지 PDF의 경우 OCR 방법을 사용해야 합니다." ++ NL;
    U "- OCR 사용을 위해서는 Tesseract와 poppler 설치가 필요합니다." ++ NL ].

(** The six header writes of an output file, in one string. *)
Definition output_header (r : ExtractionResult) (pdf_name now : str) : str :=
  (U "# 추출 방법: " ++ method r ++ NL)
  ++ (U "# 원본 파일: " ++ pdf_name ++ NL)
  ++ (U "# 추출 시간: " ++ now ++ NL)
  ++ (U "# 총 문자 수: " ++ format_comma (len (text r)) ++ U "자" ++ NL)
  ++ (U "# 총 페이지: " ++ str_of_int (length (pages r)) ++ U "페이지" ++ NL)
  ++ (times (U "=") 60 ++ NL ++ NL).

(** The body of the loop of [save_results], for one entry of the
    dict. *)
Definition save_entry (env : Env) (pdf_name : str) (output_dir : Path)
  : str * ExtractionResult -> M World unit :=
  fun '(method_name, result) =>
    let base_name := replace pdf_name (U ".pdf") [] in
    if success result && truthy (strip (text result)) then
      let output_file := Path_div output_dir (output_name base_name method_name) in
      with_open_w output_file
        (f_write (U "# 추출 방법: " ++ method result ++ NL) ;;
         f_write (U "# 원본 파일: " ++ pdf_name ++ NL) ;;
         now <- in_block (now_isoformat env) ;;
         f_write (U "# 추출 시간: " ++ now ++ NL) ;;
         f_write (U "# 총 문자 수: " ++ format_comma (len (text result))
                  ++ U "자" ++ NL) ;;
         f_write (U "# 총 페이지: " ++ str_of_int (length (pages result))
                  ++ U "페이지" ++ NL) ;;
         f_write (times (U "=") 60 ++ NL ++ NL) ;;
         f_write (text result)) ;;
      print (U "    저장됨: " ++ Path_name output_file)
    else ret tt.

(** The events of the loop of [save_results], the clock standing at
    [clk] when it starts. *)
Fixpoint save_events (env : Env) (pdf_name : str) (output_dir : Path)
  (clk : nat) (results : dict ExtractionResult) : list event :=
  match results with
  | [] => []
  | (m, r) :: rest =>
    if qualifies r
    then WriteFile (output_file output_dir pdf_name m)
           (output_header r pdf_name (isoformat_now env clk) ++ text r)
         :: Print (U "    저장됨: "
                   ++ output_name (replace pdf_name (U ".pdf") []) m)
         :: save_events env pdf_name output_dir (S clk) rest
    else save_events env pdf_name output_dir clk rest
  end.

(** The files the Persister opens for one input file. *)
Definition outputs_of (pdf_name : str) (results : dict ExtractionResult)
  : list Path :=
  (fun mr => output_file OUTPUT_DIR pdf_name mr.1)
    <$> filter (fun mr : str * ExtractionResult => qualifies mr.2) results.

(** Every string a run of [main] writes to a file can be encoded: the
    names found by the scan, the readings of the clock, and the texts
    that are saved. *)
Definition run_encodable (env : Env) : Prop :=
  (forall name, name ∈ PDF_DIR_glob env -> encodable name = true)
  /\ (forall n, encodable (isoformat_now env n) = true)
  /\ forall name r,
       name ∈ PDF_DIR_glob env ->
       extract_with_pymupdf env (Path_div PDF_DIR name) = Return r
       \/ extract_with_pdfplumber env (Path_div PDF_DIR name) = Return r ->
       success r = true -> strip (text r) <> [] ->
       encodable (text r) = true.

(** ** Further sample environments *)

Definition env_with_fitz (env : Env) (open_ : Path -> outcome fitz_doc) : Env :=
  {| os_sep := os_sep env;
     PDF_DIR_exists := PDF_DIR_exists env;
     PDF_DIR_glob := PDF_DIR_glob env;
     fitz_open := open_;
     pdfplumber_open := pdfplumber_open env;
     import_pytesseract := import_pytesseract env;
     import_pdf2image := import_pdf2image env;
     os_path_exists := os_path_exists env;
     tesseract_cmd := tesseract_cmd env;
     convert_from_path := convert_from_path env;
     image_to_string := image_to_string env;
     isoformat_now := isoformat_now env |}.

Definition env_with_plumber (env : Env)
  (open_ : Path -> outcome (list plumber_page)) : Env :=
  {| os_sep := os_sep env;
     PDF_DIR_exists := PDF_DIR_exists env;
     PDF_DIR_glob := PDF_DIR_glob env;
     fitz_open := fitz_open env;
     pdfplumber_open := open_;
     import_pytesseract := import_pytesseract env;
     import_pdf2image := import_pdf2image env;
     os_path_exists := os_path_exists env;
     tesseract_cmd := tesseract_cmd env;
     convert_from_path := convert_from_path env;
     image_to_string := image_to_string env;
     isoformat_now := isoformat_now env |}.

Definition env_with_ocr (env : Env) (exists_ : str -> bool)
  (convert : Path -> outcome (list image))
  (to_string : str -> image -> str -> str -> outcome str) : Env :=
  {| os_sep := os_sep env;
     PDF_DIR_exists := PDF_DIR_exists env;
     PDF_DIR_glob := PDF_DIR_glob env;
     fitz_open := fitz_open env;
     pdfplumber_open := pdfplumber_open env;
     import_pytesseract := import_pytesseract env;
     import_pdf2image := import_pdf2image env;
     os_path_exists := exists_;
     tesseract_cmd := tesseract_cmd env;
     convert_from_path := convert;
     image_to_string := to_string;
     isoformat_now := isoformat_now env |}.

(** A document whose second page cannot be read. *)
Definition torn_doc : fitz_doc :=
  {| fitz_pages := [Return (U "Hello"); Raise sample_exn; Return (U "unread")];
     fitz_close := Return tt |}.

(** A document that is read but cannot be closed. *)
Definition unclosable_doc : fitz_doc :=
  {| fitz_pages := [Return (U "Hello"); Return (U "world")];
     fitz_close := Raise sample_exn |}.

(** Two pages, a table of one row on the first. *)
Definition tabled_pages : list plumber_page :=
  [ {| extract_text := Return (Some (U "A B"));
       extract_tables := Return [ [[Some (U "A"); None]] ] |};
    {| extract_text := Return None; extract_tables := Return [] |} ].

Definition tabled_reads : list (option str * list table) :=
  [ (Some (U "A B"), [ [[Some (U "A"); None]] ]); (None, []) ].

(** Two pages, the text of the second cannot be extracted; a third page
    is never reached. *)
Definition torn_pages : list plumber_page :=
  [ {| extract_text := Return (Some (U "A B"));
       extract_tables := Return [ [[Some (U "A"); None]] ] |};
    {| extract_text := Raise sample_exn; extract_tables := Return [] |};
    {| extract_text := Return None; extract_tables := Return [] |} ].

Definition x86_tesseract : str :=
  U "C:\Program Files (x86)\Tesseract-OCR\tesseract.exe".

(** A machine with the OCR stack: Tesseract is installed in the second
    candidate location, every file has two pages, and the recognized
    text of a page tells the command and the page. *)
Definition sample_env_ocr : Env :=
  env_with_ocr sample_env
    (fun p => bool_decide (p = x86_tesseract))
    (fun _ => Return [1%N; 2%N])
    (fun cmd img _ _ => Return (cmd ++ U " page " ++ str_of_int (N.to_nat img))).

(** The same machine, where the recognition of the second page fails. *)
Definition sample_env_ocr_torn : Env :=
  env_with_ocr sample_env
    (fun p => bool_decide (p = x86_tesseract))
    (fun _ => Return [1%N; 2%N])
    (fun cmd img _ _ => if (img =? 1)%N then Return cmd else Raise sample_exn).

(** A machine on which PyMuPDF reads a lone surrogate from the only
    page of every file, and pdfplumber the text [ok]. *)
Definition sample_env_surrogate : Env :=
  env_with_plumber
    (env_with_fitz sample_env
       (fun _ => Return {| fitz_pages := [Return [55296%N]];
                           fitz_close := Return tt |}))
    (fun _ => Return [ {| extract_text := Return (Some (U "ok"));
                          extract_tables := Return [] |} ]).

(** A world in which the path of the output directory is taken by a
    regular file: [mkdir] raises [FileExistsError], and nothing can be
    opened below that path. *)
Definition file_exists_error : exn :=
  Exn OtherException (U "[Errno 17] File exists: '추출결과'").

Definition not_a_directory_error (p : Path) : exn :=
  Exn OtherException
    (U "[Errno 20] Not a directory: '" ++ Path_str (U "/") p ++ U "'").

Definition world_output_taken : World :=
  {| events := []; clock := 0;
     fs_reply := fun _ req =>
       match req with
       | Request_mkdir _ => Raise file_exists_error
       | Request_open_w p => Raise (not_a_directory_error p)
       end |}.

(** * Properties *)

(** ** The string operations on examples *)

Example U_hangul : U "파일" = [54028; 51068]%N.
Proof. vm_compute. reflexivity. Qed.

Example replace_all_occurrences :
  replace (U "a.pdf.b.pdf") (U ".pdf") [] = U "a.b".
Proof. vm_compute. reflexivity. Qed.

Example format_comma_thousands :
  format_comma 0 = U "0" /\ format_comma 999 = U "999"
  /\ format_comma 1000 = U "1,000" /\ format_comma 4321 = U "4,321".
Proof. vm_compute. repeat split. Qed.

Example strip_example : strip (U "  a b
 ") = U "a b".
Proof. vm_compute. reflexivity. Qed.

Example isspace_examples :
  isspace 32 = true /\ isspace 10 = true /\ isspace 12288 = true
  /\ isspace 48 = false /\ isspace 54028 = false.
Proof. vm_compute. by repeat split. Qed.

(** The messages of [UnicodeEncodeError], for one surrogate and for a
    run of them. *)
Example encode_error_one :
  unicode_encode_error (U "a" ++ [55296%N])
  = Exn OtherException
      (U "'utf-8' codec can't encode character '\ud800' in position 1: surrogates not allowed").
Proof. vm_compute. reflexivity. Qed.

Example encode_error_run :
  unicode_encode_error
    (U "ab" ++ [56448; 56449; 56450]%N ++ U " x " ++ [55296%N])
  = Exn OtherException
      (U "'utf-8' codec can't encode characters in position 2-4: surrogates not allowed").
Proof. vm_compute. reflexivity. Qed.

(** ** The page loops of the extractors *)

Lemma add_entries_nil r : add_entries r [] [] = r.
Proof.
  destruct r as [m t ps tbs s e n]; unfold add_entries; simpl.
  rewrite app_nil_r. f_equal. destruct tbs; simpl; [|done].
  by rewrite app_nil_r.
Qed.

Lemma add_entries_add r es1 ts1 es2 ts2 :
  add_entries (add_entries r es1 ts1) es2 ts2
  = add_entries r (es1 ++ es2) (ts1 ++ ts2).
Proof.
  destruct r as [m t ps tbs s e n]; unfold add_entries; simpl.
  rewrite app_assoc. f_equal. destruct tbs; simpl; [|done].
  by rewrite app_assoc.
Qed.

Lemma frame_eta fr : {| result := result fr; all_text := all_text fr |} = fr.
Proof. by destruct fr. Qed.

(** The loop of [extract_with_pymupdf] and [extract_with_ocr]: it
    records the pages read before the first exception and stops there. *)
Lemma text_loop_run {A : Type} (read : A -> outcome str) (xs : list A)
  (start : nat) (fr : frame) :
  for_each (enumerate_from start xs)
    (fun '(page_num, x) =>
       page_text <- call (read x) ;;
       all_text_append page_text ;;
       pages_append (text_entry page_num page_text)) fr
  = (match first_raise read xs with
     | None => Return tt
     | Some e => Raise e
     end,
     {| result := add_entries (result fr)
                    (entries_from text_entry start (read_ok read xs)) [];
        all_text := all_text fr ++ read_ok read xs |}).
Proof.
  revert start fr. induction xs as [|x xs IH]; intros start fr; simpl.
  - by rewrite add_entries_nil, app_nil_r, frame_eta.
  - unfold bind at 1 2. unfold call at 1. destruct (read x) as [t|e]; simpl.
    + unfold bind at 1. simpl. rewrite IH. simpl.
      f_equal.
      destruct fr as [[m tx ps tbs s er n] at0]; unfold add_entries; simpl.
      rewrite <- !app_assoc; simpl.
      by destruct tbs; simpl; rewrite ?app_nil_r.
    + by rewrite add_entries_nil, app_nil_r, frame_eta.
Qed.

(** The loop of [extract_with_pdfplumber].  An exception of
    [extract_tables] leaves the text of its page in [all_text] but no
    entry in [result]. *)
Lemma plumber_loop_run (pgs : list plumber_page) (start : nat) (fr : frame) :
  exists texts : list str,
    for_each (enumerate_from start pgs)
      (fun '(page_num, page) =>
         extracted <- call (extract_text page) ;;
         let page_text := or_empty extracted in
         all_text_append page_text ;;
         tables <- call (extract_tables page) ;;
         pages_append (plumber_entry page_num (page_text, tables)) ;;
         match tables with
         | [] => ret tt
         | _ :: _ =>
           tables_append {| tables_page := page_num + 1;
                            tables_found := tables |}
         end) fr
    = (match first_raise plumber_read pgs with
       | None => Return tt
       | Some e => Raise e
       end,
       {| result := add_entries (result fr)
                      (entries_from plumber_entry start
                         (read_ok plumber_read pgs))
                      (table_entries_from start (read_ok plumber_read pgs));
          all_text := texts |})
    /\ (first_raise plumber_read pgs = None ->
        texts = all_text fr ++ (read_ok plumber_read pgs).*1).
Proof.
  match goal with |- context [for_each _ ?b] => set (body := b) end.
  assert (Hstep : forall i pg fr0,
    body (i, pg) fr0
    = match plumber_read pg with
      | Return rd =>
        (Return tt,
         {| result := add_entries (result fr0) [plumber_entry i rd]
                        (table_entries_from i [rd]);
            all_text := all_text fr0 ++ [rd.1] |})
      | Raise e =>
        (Raise e,
         {| result := result fr0;
            all_text := match extract_text pg with
                        | Return x => all_text fr0 ++ [or_empty x]
                        | Raise _ => all_text fr0
                        end |})
      end).
  { intros i pg [[m tx ps tbs s er n] at0]. unfold body, plumber_read, bind, call.
    destruct (extract_text pg) as [x|e]; simpl; [|done].
    destruct (extract_tables pg) as [[|tb tbs']|e]; simpl; [| |done].
    - unfold add_entries; simpl. do 2 f_equal.
      by destruct tbs; simpl; rewrite ?app_nil_r.
    - done. }
  clearbody body. revert start fr.
  induction pgs as [|pg pgs IH]; intros start fr; simpl.
  - exists (all_text fr). split; [|by rewrite app_nil_r].
    by rewrite add_entries_nil, frame_eta.
  - unfold bind at 1. rewrite Hstep.
    destruct (plumber_read pg) as [rd|e] eqn:Hrd.
    + match goal with
      | |- context [for_each _ _ ?fr1] =>
        destruct (IH (S start) fr1) as (texts & Hrun & Htexts)
      end.
      exists texts. rewrite Hrun. simpl. split.
      * rewrite add_entries_add. do 3 f_equal.
        by destruct rd as [t [|tb tbs]].
      * intros Hnone. rewrite (Htexts Hnone). simpl.
        by rewrite <- app_assoc.
    + exists (match extract_text pg with
              | Return x => all_text fr ++ [or_empty x]
              | Raise _ => all_text fr
              end).
      split; [|done]. simpl. by rewrite add_entries_nil.
Qed.

(** ** What the extractors return *)

Section extractors.
Variables (env : Env) (pdf_path : Path).

Lemma extract_with_pymupdf_eq :
  extract_with_pymupdf env pdf_path = Return (pymupdf_result env pdf_path).
Proof.
  unfold extract_with_pymupdf, pymupdf_result, pymupdf_read_error.
  unfold return_result, try_except. unfold bind at 1. unfold call at 1.
  destruct (fitz_open env pdf_path) as [doc|e]; [|done].
  unfold bind at 1 2. unfold enumerate.
  cbn [set_all_text modify].
  rewrite (text_loop_run id).
  destruct (first_raise id (fitz_pages doc)) as [e|]; [done|].
  unfold bind, call, get. simpl.
  by destruct (fitz_close doc).
Qed.

Lemma extract_with_pdfplumber_eq :
  extract_with_pdfplumber env pdf_path
  = Return (pdfplumber_result env pdf_path).
Proof.
  unfold extract_with_pdfplumber, pdfplumber_result, pdfplumber_read_error.
  unfold return_result, try_except. unfold bind at 1. unfold call at 1.
  destruct (pdfplumber_open env pdf_path) as [pgs|e]; [|done].
  unfold bind at 1 2. unfold enumerate.
  cbn [set_all_text modify result all_text].
  match goal with
  | |- context [for_each _ _ ?fr] =>
    destruct (plumber_loop_run pgs 0 fr) as (texts & Hrun & Htexts)
  end.
  unfold plumber_entry in Hrun at 1. cbn [fst snd] in Hrun. rewrite Hrun.
  destruct (first_raise plumber_read pgs) as [e|]; [done|].
  unfold bind, call, get. simpl. by rewrite Htexts.
Qed.

Lemma extract_with_ocr_eq :
  extract_with_ocr env pdf_path = Return (ocr_result env pdf_path).
Proof.
  unfold extract_with_ocr, ocr_result, ocr_handler_message.
  unfold return_result. unfold try_except at 1.
  unfold bind at 1. unfold call at 1.
  destruct (import_pytesseract env) as [[]|e]; [|by destruct (exn_class e)].
  unfold bind at 1. unfold call at 1.
  destruct (import_pdf2image env) as [[]|e]; [|by destruct (exn_class e)].
  unfold bind at 1. unfold try_except at 1. unfold bind at 1. unfold call at 1.
  destruct (convert_from_path env pdf_path) as [images|e]; [|done].
  unfold ret at 1. unfold bind at 1 2. unfold enumerate.
  cbn [set_all_text modify result all_text].
  pose proof (text_loop_run (ocr_read env) images 0) as Hrun.
  unfold ocr_read at 1 in Hrun. unfold text_entry at 1 in Hrun.
  rewrite Hrun. clear Hrun.
  destruct (first_raise (ocr_read env) images) as [e|];
    [by destruct (exn_class e)|].
  unfold bind, call, get. by simpl.
Qed.

End extractors.

(** ** Rules for runs *)

Section run_rules.
Context {A B : Type}.
Implicit Types (w : World) (ev : event) (blk : Block).

Lemma runs_ret (a : A) w : runs (ret a) w a [] 0.
Proof. unfold runs, ret. rewrite app_nil_r, Nat.add_0_r. by destruct w. Qed.

Lemma runs_bind (m : M World A) (k : A -> M World B) w a b
  n1 t1 n2 t2 :
  runs m w a n1 t1 ->
  runs (k a) {| events := events w ++ n1; clock := clock w + t1;
                fs_reply := fs_reply w |} b n2 t2 ->
  runs (x <- m ;; k x) w b (n1 ++ n2) (t1 + t2).
Proof.
  unfold runs, bind. intros -> ->. simpl.
  by rewrite app_assoc, Nat.add_assoc.
Qed.

Lemma runs_emit ev w : runs (emit ev) w tt [ev] 0.
Proof. unfold runs, emit, modify. by rewrite Nat.add_0_r. Qed.

Lemma runs_print line w : runs (print line) w tt [Print line] 0.
Proof. apply runs_emit. Qed.

Lemma runs_ask req w :
  fs_reply w (events w) req = Return tt -> runs (ask req) w tt [] 0.
Proof.
  intros H. unfold runs, ask. rewrite H, app_nil_r, Nat.add_0_r.
  by destruct w.
Qed.

Lemma runs_mkdir p w :
  fs_reply w (events w) (Request_mkdir p) = Return tt ->
  runs (mkdir_exist_ok p) w tt [Mkdir p] 0.
Proof.
  intros H. unfold runs, mkdir_exist_ok, bind, ask, emit, modify.
  by rewrite H, Nat.add_0_r.
Qed.

Lemma runs_now env w :
  runs (now_isoformat env) w (isoformat_now env (clock w)) [] 1.
Proof.
  unfold runs, now_isoformat. by rewrite app_nil_r, Nat.add_1_r.
Qed.

Lemma runs_call (a : A) w : runs (call (Return a)) w a [] 0.
Proof. apply runs_ret. Qed.

Lemma block_ret (a : A) blk : block_runs (ret a) blk a 0 [].
Proof.
  unfold block_runs, ret. rewrite app_nil_r, Nat.add_0_r.
  by destruct blk as [[] ?].
Qed.

Lemma block_bind (m : M Block A) (k : A -> M Block B) blk a b
  t1 c1 t2 c2 :
  block_runs m blk a t1 c1 ->
  block_runs (k a)
    {| outside := {| events := events (outside blk);
                     clock := clock (outside blk) + t1;
                     fs_reply := fs_reply (outside blk) |};
       buffer := buffer blk ++ c1 |} b t2 c2 ->
  block_runs (x <- m ;; k x) blk b (t1 + t2) (c1 ++ c2).
Proof.
  unfold block_runs, bind. intros -> ->. simpl.
  by rewrite app_assoc, Nat.add_assoc.
Qed.

Lemma block_f_write s blk :
  encodable s = true -> block_runs (f_write s) blk tt 0 s.
Proof.
  intros H. unfold block_runs, f_write. rewrite H, Nat.add_0_r.
  by destruct blk as [[] ?].
Qed.

Lemma block_now env blk :
  block_runs (in_block (now_isoformat env)) blk
    (isoformat_now env (clock (outside blk))) 1 [].
Proof.
  unfold block_runs, in_block, now_isoformat.
  by rewrite app_nil_r, Nat.add_1_r.
Qed.

End run_rules.

(** A loop of writes in a block. *)
Lemma block_for_each {X : Type} (xs : list X) (body : X -> M Block unit)
  (g : X -> str) b :
  (forall x b', x ∈ xs -> block_runs (body x) b' tt 0 (g x)) ->
  block_runs (for_each xs body) b tt 0 (mjoin (g <$> xs)).
Proof.
  revert b. induction xs as [|x xs IH]; intros b Hbody.
  - apply block_ret.
  - cbn [for_each]. rewrite fmap_cons. cbn [mjoin list_join].
    apply (block_bind _ _ b tt tt 0 (g x) 0).
    + apply Hbody. by left.
    + apply IH. intros x' b' Hx'. apply Hbody. by right.
Qed.

(** A block whose body returns: the file is opened, written, closed. *)
Lemma runs_with_open_w p (body : M Block unit) w ticks content :
  fs_reply w (events w) (Request_open_w p) = Return tt ->
  block_runs body {| outside := w; buffer := [] |} tt ticks content ->
  runs (with_open_w p body) w tt [WriteFile p content] ticks.
Proof.
  intros Hopen Hbody. unfold with_open_w, runs, bind, ask.
  rewrite Hopen. destruct w as [evs clk reply].
  unfold block_runs in Hbody. cbn in Hbody. by rewrite Hbody.
Qed.

Lemma runs_eq {A : Type} (m : M World A) w a n n' t t' :
  runs m w a n t -> n = n' -> t = t' -> runs m w a n' t'.
Proof. by intros H <- <-. Qed.

Lemma block_runs_eq {A : Type} (m : M Block A) b a t t' c c' :
  block_runs m b a t c -> t = t' -> c = c' -> block_runs m b a t' c'.
Proof. by intros H <- <-. Qed.

Lemma written_app evs1 evs2 : written (evs1 ++ evs2) = written evs1 ++ written evs2.
Proof. apply omap_app. Qed.

Lemma created_dirs_app evs1 evs2 :
  created_dirs (evs1 ++ evs2) = created_dirs evs1 ++ created_dirs evs2.
Proof. apply omap_app. Qed.

Lemma stdout_app evs1 evs2 : stdout (evs1 ++ evs2) = stdout evs1 ++ stdout evs2.
Proof. apply omap_app. Qed.

Lemma Path_name_div p name : Path_name (Path_div p name) = name.
Proof. unfold Path_name, Path_div. by rewrite last_snoc. Qed.

(** ** Strings that UTF-8 can encode *)

Lemma encodable_Forall s :
  encodable s = true <-> Forall (fun c => surrogate c = false) s.
Proof.
  unfold encodable. rewrite forallb_forall, Forall_forall.
  split; intros H c Hc.
  - apply negb_true_iff, H. by apply list_elem_of_In.
  - apply negb_true_iff, H. by apply list_elem_of_In.
Qed.

Lemma encodable_app s1 s2 :
  encodable s1 = true -> encodable s2 = true -> encodable (s1 ++ s2) = true.
Proof. rewrite !encodable_Forall, Forall_app. by split. Qed.

Lemma encodable_app_inv s1 s2 :
  encodable (s1 ++ s2) = true -> encodable s1 = true /\ encodable s2 = true.
Proof. by rewrite !encodable_Forall, Forall_app. Qed.

Lemma encodable_reverse s : encodable s = true -> encodable (reverse s) = true.
Proof. rewrite !encodable_Forall. by rewrite Forall_reverse. Qed.

Lemma encodable_spaces n : encodable (replicate n 32%N) = true.
Proof. apply encodable_Forall, Forall_replicate. reflexivity. Qed.

Lemma encodable_ljust n s : encodable s = true -> encodable (ljust n s) = true.
Proof. intros H. apply encodable_app; [done|apply encodable_spaces]. Qed.

Lemma encodable_rjust n s : encodable s = true -> encodable (rjust n s) = true.
Proof. intros H. apply encodable_app; [apply encodable_spaces|done]. Qed.

Lemma encodable_times s n : encodable s = true -> encodable (times s n) = true.
Proof.
  intros H. unfold times. induction n as [|n IH]; [done|].
  cbn [replicate mjoin list_join]. by apply encodable_app.
Qed.

Lemma encodable_digits d : encodable (digits_of_uint d) = true.
Proof. unfold encodable. induction d; simpl; auto. Qed.

Lemma encodable_str_of_int n : encodable (str_of_int n) = true.
Proof. apply encodable_digits. Qed.

Lemma encodable_group_rev k ds :
  encodable ds = true -> encodable (group_rev k ds) = true.
Proof.
  revert k. induction ds as [|d ds IH]; intros k H; [done|].
  apply (encodable_app_inv [d] ds) in H as [Hd Hds].
  destruct k; cbn [group_rev].
  - apply (encodable_app [44%N; d]); [|by apply IH].
    apply (encodable_app [44%N] [d]); done.
  - apply (encodable_app [d]); [done|by apply IH].
Qed.

Lemma encodable_format_comma n : encodable (format_comma n) = true.
Proof.
  unfold format_comma.
  apply encodable_reverse, encodable_group_rev, encodable_reverse,
    encodable_str_of_int.
Qed.

Lemma encodable_short_name name :
  encodable name = true -> encodable (short_name name) = true.
Proof.
  intros H. unfold short_name. destruct (50 <? len name); [|done].
  apply encodable_app; [|by vm_compute].
  unfold slice_to. apply encodable_Forall, Forall_take.
  by apply encodable_Forall.
Qed.

Ltac encodable_tac :=
  lazymatch goal with
  | |- encodable (_ ++ _) = true => apply encodable_app; encodable_tac
  | |- encodable (format_comma _) = true => apply encodable_format_comma
  | |- encodable (str_of_int _) = true => apply encodable_str_of_int
  | |- encodable (ljust _ _) = true => apply encodable_ljust; encodable_tac
  | |- encodable (rjust _ _) = true => apply encodable_rjust; encodable_tac
  | |- encodable (times _ _) = true => apply encodable_times; encodable_tac
  | |- encodable (short_name _) = true =>
    apply encodable_short_name; encodable_tac
  | |- encodable (U _) = true => vm_compute; reflexivity
  | |- encodable NL = true => reflexivity
  | |- _ => first [assumption | by auto]
  end.

Lemma encodable_summary_row name (results : dict ExtractionResult) :
  encodable name = true -> encodable (summary_row name results) = true.
Proof. intros H. unfold summary_row. cbv zeta. encodable_tac. Qed.

(** The statements of a block, one after the other; a loop is left to
    the proof. *)
Ltac block_stmts :=
  cbv beta zeta;
  lazymatch goal with
  | |- block_runs (bind _ _) _ _ _ _ =>
    eapply block_bind;
    [block_stmts|cbn [outside buffer events clock fs_reply]; block_stmts]
  | |- block_runs (f_write _) _ _ _ _ => apply block_f_write; encodable_tac
  | |- block_runs (in_block (now_isoformat _)) _ _ _ _ => apply block_now
  | |- block_runs (ret _) _ _ _ _ => apply block_ret
  | |- _ => idtac
  end.

(** One statement of a run, chosen by its shape. *)
Ltac run_stmt :=
  cbv beta zeta;
  lazymatch goal with
  | |- runs (bind _ _) _ _ _ _ =>
    eapply runs_bind; [run_stmt|cbn [events clock fs_reply]]
  | |- runs (print _) _ _ _ _ => apply runs_print
  | |- runs (mkdir_exist_ok _) _ _ _ _ =>
    apply runs_mkdir; cbn [events clock fs_reply]; by auto
  | |- runs (with_open_w _ _) _ _ _ _ =>
    eapply runs_with_open_w;
    [cbn [events clock fs_reply]; by auto|block_stmts]
  | |- runs (now_isoformat _) _ _ _ _ => apply runs_now
  | |- runs (call (Return _)) _ _ _ _ => apply runs_call
  | |- runs (ret _) _ _ _ _ => apply runs_ret
  end.

(** ** Comparator *)

Lemma results_for_dict (a b : ExtractionResult) :
  dict_set (dict_set [] (U "pymupdf") a) (U "pdfplumber") b
  = [(U "pymupdf", a); (U "pdfplumber", b)].
Proof.
  cbn [dict_set]. rewrite decide_False; [done|].
  intros H. vm_compute in H. discriminate.
Qed.

(** The Comparator returns both results and only prints. *)
Lemma compare_methods_runs env pdf_path w :
  exists new ticks,
    runs (compare_methods env pdf_path) w (results_for env pdf_path) new ticks
    /\ written new = [] /\ created_dirs new = [].
Proof.
  unfold compare_methods.
  rewrite extract_with_pymupdf_eq, extract_with_pdfplumber_eq.
  eexists _, _. split.
  - do 9 run_stmt.
    rewrite results_for_dict. cbn [for_each].
    do 3 run_stmt.
  - done.
Qed.

(** ** Persister *)

Lemma truthy_true s : truthy s = true <-> s <> [].
Proof. by destruct s. Qed.

Lemma qualifies_true r :
  qualifies r = true <-> success r = true /\ strip (text r) <> [].
Proof.
  unfold qualifies. by rewrite andb_true_iff, truthy_true.
Qed.

Lemma filter_qualifies (results : dict ExtractionResult) :
  filter (fun mr : str * ExtractionResult => qualifies mr.2) results
  = filter (fun mr : str * ExtractionResult =>
              success mr.2 = true /\ strip (text mr.2) <> []) results.
Proof.
  apply list_filter_iff. intros [m r]. simpl.
  rewrite <- qualifies_true. by destruct (qualifies r).
Qed.

Lemma save_results_unfold env pdf_name (results : dict ExtractionResult)
  output_dir :
  save_results env pdf_name results output_dir
  = (mkdir_exist_ok output_dir ;;
     for_each results (save_entry env pdf_name output_dir)).
Proof. reflexivity. Qed.

(** The loop of [save_results] when every file can be opened and every
    string can be encoded. *)
Lemma save_loop_trace env pdf_name (results : dict ExtractionResult)
  output_dir w :
  (forall evs name,
     fs_reply w evs (Request_open_w (Path_div output_dir name))
     = Return tt) ->
  encodable pdf_name = true ->
  (forall n, encodable (isoformat_now env n) = true) ->
  (forall m r,
     (m, r) ∈ results -> qualifies r = true ->
     encodable (method r) = true /\ encodable (text r) = true) ->
  runs (for_each results (save_entry env pdf_name output_dir)) w tt
    (save_events env pdf_name output_dir (clock w) results)
    (length (filter (fun mr : str * ExtractionResult => qualifies mr.2)
               results)).
Proof.
  intros Hop Hname Hnow. revert w Hop.
  induction results as [|[m r] results IH]; intros w Hop Hres.
  - apply runs_ret.
  - cbn [for_each save_events]. rewrite filter_cons. cbn [snd].
    assert (IH' := fun w1 H =>
      IH w1 H
         (fun m' r' Hin => Hres m' r' (list_elem_of_further _ _ _ Hin))).
    unfold save_entry at 1. cbv zeta.
    change (success r && truthy (strip (text r))) with (qualifies r).
    destruct (qualifies r) eqn:Hq.
    + destruct (Hres m r) as [Hm Ht]; [by left|done|].
      rewrite decide_True by done.
      eapply runs_eq.
      * eapply runs_bind; [do 2 run_stmt|apply IH'; exact Hop].
      * cbn [app events clock]. rewrite Path_name_div.
        unfold output_header. cbn [app].
        rewrite <- !app_assoc.
        by rewrite ?Nat.add_0_r, ?Nat.add_1_r.
      * simpl. lia.
    + rewrite decide_False by (simpl; tauto).
      eapply runs_eq.
      * eapply runs_bind; [apply runs_ret|apply IH'; exact Hop].
      * cbn [app events clock]. by rewrite Nat.add_0_r.
      * done.
Qed.

(** The events of a run of [save_results], one by one, when the file
    system grants what is asked and every string can be encoded. *)
Lemma save_results_trace env pdf_name (results : dict ExtractionResult)
  output_dir w :
  fs_grants w output_dir ->
  encodable pdf_name = true ->
  (forall n, encodable (isoformat_now env n) = true) ->
  (forall m r,
     (m, r) ∈ results -> qualifies r = true ->
     encodable (method r) = true /\ encodable (text r) = true) ->
  runs (save_results env pdf_name results output_dir) w tt
    (Mkdir output_dir
     :: save_events env pdf_name output_dir (clock w) results)
    (length (filter (fun mr : str * ExtractionResult => qualifies mr.2)
               results)).
Proof.
  intros [Hmk Hop] Hname Hnow Hres. rewrite save_results_unfold.
  eapply runs_eq.
  - eapply runs_bind; [by apply runs_mkdir|].
    apply save_loop_trace; [exact Hop|done..].
  - cbn [app events clock]. by rewrite Nat.add_0_r.
  - done.
Qed.

Lemma written_cons ev evs :
  written (ev :: evs)
  = match ev with WriteFile p _ => p :: written evs | _ => written evs end.
Proof. by destruct ev. Qed.

Lemma stdout_cons ev evs :
  stdout (ev :: evs)
  = match ev with Print l => l :: stdout evs | _ => stdout evs end.
Proof. by destruct ev. Qed.

Lemma created_dirs_cons ev evs :
  created_dirs (ev :: evs)
  = match ev with Mkdir p => p :: created_dirs evs | _ => created_dirs evs end.
Proof. by destruct ev. Qed.

Lemma save_events_written env pdf_name output_dir clk
  (results : dict ExtractionResult) :
  written (save_events env pdf_name output_dir clk results)
  = (fun mr => output_file output_dir pdf_name mr.1)
      <$> filter (fun mr : str * ExtractionResult => qualifies mr.2) results.
Proof.
  revert clk. induction results as [|[m r] results IH]; intros clk; [done|].
  cbn [save_events]. rewrite filter_cons. cbn [snd].
  destruct (qualifies r).
  - rewrite decide_True by done. rewrite fmap_cons, !written_cons.
    f_equal. apply IH.
  - rewrite decide_False by (simpl; tauto). apply IH.
Qed.

Lemma save_events_stdout env pdf_name output_dir clk
  (results : dict ExtractionResult) :
  stdout (save_events env pdf_name output_dir clk results)
  = (fun mr => U "    저장됨: "
               ++ output_name (replace pdf_name (U ".pdf") []) mr.1)
      <$> filter (fun mr : str * ExtractionResult => qualifies mr.2) results.
Proof.
  revert clk. induction results as [|[m r] results IH]; intros clk; [done|].
  cbn [save_events]. rewrite filter_cons. cbn [snd].
  destruct (qualifies r).
  - rewrite decide_True by done. rewrite fmap_cons, !stdout_cons.
    f_equal. apply IH.
  - rewrite decide_False by (simpl; tauto). apply IH.
Qed.

Lemma save_events_created_dirs env pdf_name output_dir clk
  (results : dict ExtractionResult) :
  created_dirs (save_events env pdf_name output_dir clk results) = [].
Proof.
  revert clk. induction results as [|[m r] results IH]; intros clk; [done|].
  cbn [save_events]. destruct (qualifies r); [|apply IH].
  rewrite !created_dirs_cons. apply IH.
Qed.

Lemma save_events_write env pdf_name output_dir clk
  (results : dict ExtractionResult) p c :
  WriteFile p c ∈ save_events env pdf_name output_dir clk results ->
  exists m r n,
    (m, r) ∈ results /\ qualifies r = true
    /\ p = output_file output_dir pdf_name m
    /\ c = output_header r pdf_name (isoformat_now env n) ++ text r.
Proof.
  revert clk. induction results as [|[m r] results IH]; intros clk.
  - by intros ?%elem_of_nil.
  - cbn [save_events]. destruct (qualifies r) eqn:Hq.
    + rewrite !elem_of_cons. intros [[= -> ->]|[[=]|Hin]].
      * exists m, r, clk. by repeat split; [left|..].
      * destruct (IH _ Hin) as (m' & r' & n & Hin' & H).
        exists m', r', n. split; [by right|done].
    + intros Hin. destruct (IH _ Hin) as (m' & r' & n & Hin' & H).
      exists m', r', n. split; [by right|done].
Qed.

Lemma save_events_entry env pdf_name output_dir clk
  (results : dict ExtractionResult) m r :
  (m, r) ∈ results -> qualifies r = true ->
  exists n,
    WriteFile (output_file output_dir pdf_name m)
      (output_header r pdf_name (isoformat_now env n) ++ text r)
    ∈ save_events env pdf_name output_dir clk results.
Proof.
  revert clk. induction results as [|[m' r'] results IH]; intros clk Hin Hq.
  - by apply elem_of_nil in Hin.
  - cbn [save_events]. apply elem_of_cons in Hin as [[= <- <-]|Hin].
    + rewrite Hq. exists clk. by left.
    + destruct (qualifies r').
      * destruct (IH (S clk) Hin Hq) as [n Hn]. exists n. by do 2 right.
      * by apply IH.
Qed.

Lemma written_Print l evs : written (Print l :: evs) = written evs.
Proof. done. Qed.
Lemma written_Mkdir p evs : written (Mkdir p :: evs) = written evs.
Proof. done. Qed.
Lemma written_WriteFile p c evs : written (WriteFile p c :: evs) = p :: written evs.
Proof. done. Qed.
Lemma written_nil : written [] = [].
Proof. done. Qed.
Lemma created_dirs_Print l evs : created_dirs (Print l :: evs) = created_dirs evs.
Proof. done. Qed.
Lemma created_dirs_Mkdir p evs :
  created_dirs (Mkdir p :: evs) = p :: created_dirs evs.
Proof. done. Qed.
Lemma created_dirs_WriteFile p c evs :
  created_dirs (WriteFile p c :: evs) = created_dirs evs.
Proof. done. Qed.
Lemma created_dirs_nil : created_dirs [] = [].
Proof. done. Qed.

Create Rewrite HintDb events_db.
#[local] Hint Rewrite written_app created_dirs_app written_Print written_Mkdir
  written_WriteFile written_nil created_dirs_Print created_dirs_Mkdir
  created_dirs_WriteFile created_dirs_nil @app_nil_r @app_nil_l : events_db.

(** ** Driver *)

Lemma dict_set_fresh {V : Type} (d : dict V) k v :
  k ∉ keys d -> dict_set d k v = d ++ [(k, v)].
Proof.
  unfold keys. induction d as [|[k' v'] d IH]; intros Hk; simpl; [done|].
  rewrite fmap_cons, not_elem_of_cons in Hk. destruct Hk as [Hne Hk].
  rewrite decide_False by done. by rewrite IH.
Qed.

Lemma keys_app {V : Type} (d1 d2 : dict V) : keys (d1 ++ d2) = keys d1 ++ keys d2.
Proof. apply fmap_app. Qed.

(** With pairwise distinct names, every file gets an entry of its own,
    in the order of the scan. *)
Lemma all_results_after_fresh env names acc :
  NoDup names ->
  (forall name, name ∈ names -> name ∉ keys acc) ->
  all_results_after env acc names
  = acc ++ ((fun name => (name, results_for env (Path_div PDF_DIR name)))
              <$> names).
Proof.
  unfold all_results_after. revert acc.
  induction names as [|name names IH]; intros acc Hnd Hfresh; simpl.
  - by rewrite app_nil_r.
  - apply NoDup_cons in Hnd as [Hnotin Hnd].
    rewrite dict_set_fresh by (apply Hfresh; left).
    rewrite IH; [by rewrite <- app_assoc|done|].
    intros n Hn. rewrite keys_app, not_elem_of_app. split.
    + apply Hfresh. by right.
    + unfold keys. simpl. rewrite list_elem_of_singleton. by intros ->.
Qed.

Lemma outputs_of_results_for env name pdf_path :
  outputs_of name (results_for env pdf_path)
  = (if qualifies (pymupdf_result env pdf_path)
     then [output_file OUTPUT_DIR name (U "pymupdf")] else [])
    ++ (if qualifies (pdfplumber_result env pdf_path)
        then [output_file OUTPUT_DIR name (U "pdfplumber")] else []).
Proof.
  unfold outputs_of, results_for. rewrite !filter_cons, filter_nil. cbn [snd].
  destruct (qualifies (pymupdf_result env pdf_path));
    destruct (qualifies (pdfplumber_result env pdf_path));
    rewrite ?decide_True by done; rewrite ?decide_False by (simpl; tauto);
    done.
Qed.

Lemma mjoin_app {X : Type} (l1 l2 : list (list X)) :
  mjoin (l1 ++ l2) = mjoin l1 ++ mjoin l2.
Proof.
  induction l1 as [|x l1 IH]; [done|].
  simpl. rewrite <- app_assoc. f_equal. exact IH.
Qed.

Lemma dict_set_elem {V : Type} (d : dict V) k v k' v' :
  (k', v') ∈ dict_set d k v -> (k', v') ∈ d \/ (k' = k /\ v' = v).
Proof.
  induction d as [|[k0 v0] d IH]; cbn [dict_set].
  - intros [= -> ->]%list_elem_of_singleton. by right.
  - destruct (decide (k0 = k)) as [->|Hne].
    + intros [[= -> ->]|Hin]%elem_of_cons; [by right|].
      left. by right.
    + intros [[= -> ->]|Hin]%elem_of_cons; [left; by left|].
      destruct (IH Hin) as [H|H]; [left; by right|by right].
Qed.

(** The keys of [all_results] are names of the scan. *)
Lemma all_results_after_elem env names acc k v :
  (k, v) ∈ all_results_after env acc names ->
  (k, v) ∈ acc \/ (k ∈ names /\ v = results_for env (Path_div PDF_DIR k)).
Proof.
  unfold all_results_after. revert acc.
  induction names as [|name names IH]; intros acc; cbn [foldl].
  - by left.
  - intros [Hin|[Hin ->]]%IH.
    + apply dict_set_elem in Hin as [Hin|[-> ->]]; [by left|].
      right. split; [by left|done].
    + right. split; [by right|done].
Qed.

Lemma method_results_for env pdf_path m r :
  (m, r) ∈ results_for env pdf_path -> encodable (method r) = true.
Proof.
  unfold results_for.
  intros [[= -> ->]|[[= -> ->]|[]%elem_of_nil]%elem_of_cons]%elem_of_cons;
    by vm_compute.
Qed.

Lemma results_for_extracted env pdf_path m r :
  (m, r) ∈ results_for env pdf_path ->
  extract_with_pymupdf env pdf_path = Return r
  \/ extract_with_pdfplumber env pdf_path = Return r.
Proof.
  rewrite extract_with_pymupdf_eq, extract_with_pdfplumber_eq.
  unfold results_for.
  intros [[= -> ->]|[[= -> ->]|[]%elem_of_nil]%elem_of_cons]%elem_of_cons;
    [by left|by right].
Qed.

(** The Persister on the results of one file of the scan. *)
Lemma save_results_of_scan env name w :
  fs_grants w OUTPUT_DIR ->
  run_encodable env ->
  name ∈ PDF_DIR_glob env ->
  runs (save_results env name (results_for env (Path_div PDF_DIR name))
          OUTPUT_DIR) w tt
    (Mkdir OUTPUT_DIR
     :: save_events env name OUTPUT_DIR (clock w)
          (results_for env (Path_div PDF_DIR name)))
    (length (filter (fun mr : str * ExtractionResult => qualifies mr.2)
               (results_for env (Path_div PDF_DIR name)))).
Proof.
  intros Hfs (Hnames & Hnow & Htexts) Hin.
  apply save_results_trace; [done|by apply Hnames|done|].
  intros m r Hmr [Hs Ht]%qualifies_true. split.
  - by eapply method_results_for.
  - eapply Htexts; [exact Hin| |done..].
    by eapply results_for_extracted.
Qed.

(** The loop of [main] over the files found: what it writes and
    creates. *)
Lemma main_loop_writes env names acc w :
  fs_grants w OUTPUT_DIR ->
  run_encodable env ->
  names ⊆ PDF_DIR_glob env ->
  exists new ticks,
    runs (for_fold (map (Path_div PDF_DIR) names) acc
            (fun all_results pdf_file =>
               results <- compare_methods env pdf_file ;;
               let all_results :=
                 dict_set all_results (Path_name pdf_file) results in
               save_results env (Path_name pdf_file) results OUTPUT_DIR ;;
               ret all_results))
         w (all_results_after env acc names) new ticks
    /\ written new
       = mjoin ((fun name =>
                   outputs_of name (results_for env (Path_div PDF_DIR name)))
                  <$> names)
    /\ created_dirs new = replicate (length names) OUTPUT_DIR.
Proof.
  intros Hfs Henc. revert acc w Hfs.
  induction names as [|name names IH]; intros acc w Hfs Hsub.
  - exists [], 0. split; [apply runs_ret|done].
  - cbn [map for_fold]. rewrite Path_name_div.
    assert (Hin : name ∈ PDF_DIR_glob env) by set_solver.
    assert (Hsub' : names ⊆ PDF_DIR_glob env) by set_solver.
    destruct (compare_methods_runs env (Path_div PDF_DIR name) w)
      as (n1 & t1 & Hrun1 & Hw1 & Hd1).
    pose proof (save_results_of_scan env name
                  {| events := events w ++ n1; clock := clock w + t1;
                     fs_reply := fs_reply w |} Hfs Henc Hin) as Hrun2.
    match goal with
    | |- exists _ _, runs (bind ?m _) _ _ _ _ /\ _ =>
      eassert (Hbody : runs m w _ _ _)
    end.
    { eapply runs_bind; [exact Hrun1|]. cbv zeta.
      eapply runs_bind; [exact Hrun2|]. apply runs_ret. }
    match type of Hbody with
    | runs _ _ ?a ?nb ?tb =>
      destruct (IH a {| events := events w ++ nb; clock := clock w + tb;
                        fs_reply := fs_reply w |} Hfs Hsub')
        as (n3 & t3 & Hrun3 & Hw3 & Hd3)
    end.
    eexists _, _. split; [|split].
    + eapply runs_bind; [exact Hbody|exact Hrun3].
    + autorewrite with events_db.
      rewrite Hw1, Hw3, save_events_written. done.
    + autorewrite with events_db.
      rewrite Hd1, Hd3, save_events_created_dirs. done.
Qed.

(** Sequencing, for any property of the events of the whole. *)
Lemma runs_bind_post {A B : Type} (m : M World A) (k : A -> M World B)
  (Q : list event -> Prop) w a b n1 t1 :
  runs m w a n1 t1 ->
  (exists n2 t2,
     runs (k a) {| events := events w ++ n1; clock := clock w + t1;
                   fs_reply := fs_reply w |} b n2 t2
     /\ Q (n1 ++ n2)) ->
  exists n t, runs (x <- m ;; k x) w b n t /\ Q n.
Proof.
  intros Hm (n2 & t2 & Hk & Hn2).
  exists (n1 ++ n2), (t1 + t2). split; [by eapply runs_bind|done].
Qed.

Lemma mjoin_cons {X : Type} (x : list X) (l : list (list X)) :
  mjoin (x :: l) = x ++ mjoin l.
Proof. done. Qed.

Lemma mjoin_nil {X : Type} : mjoin ([] : list (list X)) = [].
Proof. done. Qed.

Lemma events_shape (e1 e2 e3 e4 e5 : event) n e6 e7 e8 e9 e10 e11 :
  [e1] ++ [e2] ++ [e3] ++ [e4] ++ [e5] ++ n ++ [e6] ++ [e7] ++ [e8]
  ++ [e9] ++ [e10] ++ [e11]
  = (e1 :: e2 :: e3 :: e4 :: e5 :: n ++ [e6; e7; e8]) ++ [e9; e10; e11].
Proof. cbn [app]. by rewrite <- app_assoc. Qed.

(** The writes of the summary block, in one string. *)
Lemma summary_writes_eq now (all : dict (dict ExtractionResult)) :
  (U "PDF 텍스트 추출 결과 비교" ++ NL)
  ++ [] ++ (U "추출 시간: " ++ now ++ NL)
  ++ (times (U "=") 80 ++ NL ++ NL)
  ++ (ljust 50 (U "파일명") ++ U " " ++ rjust 12 (U "PyMuPDF") ++ U " "
      ++ rjust 12 (U "pdfplumber") ++ NL)
  ++ (times (U "-") 80 ++ NL)
  ++ mjoin ((fun '(pdf_name, results) => summary_row pdf_name results)
              <$> all)
  ++ (NL ++ NL ++ U "주의사항:" ++ NL)
  ++ (U "- 문자 수가 0이면 해당 PDF에 텍스트 레이어가 없거나 이미지 PDF입니다." ++ NL)
  ++ (U "- 이미지 PDF의 경우 OCR 방법을 사용해야 합니다." ++ NL)
  ++ U "- OCR 사용을 위해서는 Tesseract와 poppler 설치가 필요합니다." ++ NL
  = mjoin (summary_head now ++ summary_rows all ++ summary_notes).
Proof.
  unfold summary_head, summary_notes, summary_rows.
  rewrite !mjoin_app, !mjoin_cons, !mjoin_nil, !app_nil_r, app_nil_l.
  by rewrite <- !app_assoc.
Qed.

(** A run of [main] on a scan that found files: the outputs of the
    files, then the summary, then two lines. *)
Lemma main_runs_nonempty env w name names :
  PDF_DIR_exists env = true ->
  PDF_DIR_glob env = name :: names ->
  fs_grants w OUTPUT_DIR ->
  run_encodable env ->
  exists n t before now line1 line2,
    runs (main env) w tt n t
    /\ n = before
           ++ [ WriteFile summary_file
                  (mjoin (summary_head now
                          ++ summary_rows
                               (all_results_after env [] (name :: names))
                          ++ summary_notes));
                Print line1; Print line2 ]
    /\ written before
       = mjoin ((fun name =>
                   outputs_of name (results_for env (Path_div PDF_DIR name)))
                  <$> name :: names)
    /\ created_dirs before
       = replicate (S (length (name :: names))) OUTPUT_DIR.
Proof.
  intros Hex Hglob Hfs Henc. pose proof Hfs as [Hmk Hop].
  pose proof Henc as (Hnames & Hnow & _).
  set (Q := fun n : list event =>
    exists before now line1 line2,
      n = before
          ++ [ WriteFile summary_file
                 (mjoin (summary_head now
                         ++ summary_rows
                              (all_results_after env [] (name :: names))
                         ++ summary_notes));
               Print line1; Print line2 ]
      /\ written before
         = mjoin ((fun name =>
                     outputs_of name (results_for env (Path_div PDF_DIR name)))
                    <$> name :: names)
      /\ created_dirs before
         = replicate (S (length (name :: names))) OUTPUT_DIR).
  enough (Hrun : exists n t, runs (main env) w tt n t /\ Q n).
  { destruct Hrun as (n & t & Hrun & before & now & l1 & l2 & HQ).
    by exists n, t, before, now, l1, l2. }
  unfold main. rewrite Hex, Hglob. cbn [negb map]. cbv zeta.
  change (Path_div PDF_DIR name :: map (Path_div PDF_DIR) names)
    with (map (Path_div PDF_DIR) (name :: names)).
  do 5 (eapply runs_bind_post; [run_stmt|cbn [events clock fs_reply]]).
  match goal with
  | |- exists _ _, runs _ ?W _ _ _ /\ _ =>
    destruct (main_loop_writes env (name :: names) [] W)
      as (n1 & t1 & Hloop & Hw & Hd); [exact Hfs|exact Henc|by rewrite Hglob|]
  end.
  eapply runs_bind_post; [exact Hloop|cbn [events clock fs_reply]].
  do 3 (eapply runs_bind_post; [run_stmt|cbn [events clock fs_reply]]).
  eapply runs_bind_post.
  { eapply runs_with_open_w; [apply (Hop _ (U "비교_요약.txt"))|].
    eapply block_runs_eq; [|reflexivity|apply summary_writes_eq].
    block_stmts.
    eapply (block_for_each _ _
              (fun '(pdf_name, results) => summary_row pdf_name results)).
    intros [k v] b' Hin. apply block_f_write, encodable_summary_row.
    apply all_results_after_elem in Hin as [[]%elem_of_nil|[Hin _]].
    apply Hnames. by rewrite Hglob. }
  cbn [events clock fs_reply].
  eapply runs_bind_post; [run_stmt|cbn [events clock fs_reply]].
  eexists _, _. split; [run_stmt|].
  unfold Q.
  eexists (_ :: _ :: _ :: _ :: _ :: n1 ++ [_; _; _]), _, _, _.
  split; [apply events_shape|]. split.
  - autorewrite with events_db. by rewrite Hw.
  - autorewrite with events_db. by rewrite Hd.
Qed.

(** ** Rules for what a statement may do, whatever its outcome *)

Section confined_rules.
Context {A B : Type} (ok : event -> Prop).

Lemma confined_ret (a : A) : confined ok (ret a).
Proof. intros w. exists []. by rewrite app_nil_r. Qed.

Lemma confined_call (o : outcome A) : confined ok (call o).
Proof. intros w. exists []. by rewrite app_nil_r. Qed.

Lemma confined_bind (m : M World A) (k : A -> M World B) :
  confined ok m -> (forall a, confined ok (k a)) ->
  confined ok (x <- m ;; k x).
Proof.
  intros Hm Hk w. destruct (Hm w) as (n1 & H1 & Hok1). unfold bind.
  destruct (m w) as [[a|e] w1]; cbn [snd] in *.
  - destruct (Hk a w1) as (n2 & H2 & Hok2). exists (n1 ++ n2).
    rewrite H2, H1, app_assoc. split; [done|by apply Forall_app].
  - by exists n1.
Qed.

Lemma confined_emit ev : ok ev -> confined ok (emit ev).
Proof. intros Hev w. exists [ev]. split; [done|by constructor]. Qed.

Lemma confined_print line : ok (Print line) -> confined ok (print line).
Proof. apply confined_emit. Qed.

Lemma confined_ask req : confined ok (ask req).
Proof. intros w. exists []. by rewrite app_nil_r. Qed.

Lemma confined_now env : confined ok (now_isoformat env).
Proof. intros w. exists []. by rewrite app_nil_r. Qed.

End confined_rules.

Lemma confined_mkdir ok p : ok (Mkdir p) -> confined ok (mkdir_exist_ok p).
Proof.
  intros Hok. apply confined_bind; [apply confined_ask|].
  intros _. by apply confined_emit.
Qed.

Lemma confined_for_each {X : Type} ok (xs : list X) (body : X -> M World unit) :
  (forall x, x ∈ xs -> confined ok (body x)) ->
  confined ok (for_each xs body).
Proof.
  induction xs as [|x xs IH]; intros Hbody; cbn [for_each].
  - apply confined_ret.
  - apply confined_bind; [apply Hbody; by left|].
    intros _. apply IH. intros x' Hx'. apply Hbody. by right.
Qed.

Lemma confined_for_fold {X Y : Type} ok (xs : list X) (acc : Y)
  (body : Y -> X -> M World Y) :
  (forall acc x, x ∈ xs -> confined ok (body acc x)) ->
  confined ok (for_fold xs acc body).
Proof.
  revert acc. induction xs as [|x xs IH]; intros acc Hbody; cbn [for_fold].
  - apply confined_ret.
  - apply confined_bind; [apply Hbody; by left|].
    intros acc'. apply IH. intros acc'' x' Hx'. apply Hbody. by right.
Qed.

Lemma confined_weaken {A : Type} (ok ok' : event -> Prop) (m : M World A) :
  (forall ev, ok ev -> ok' ev) -> confined ok m -> confined ok' m.
Proof.
  intros Himp Hm w. destruct (Hm w) as (new & Hev & Hok).
  exists new. split; [done|]. eapply Forall_impl; [exact Hok|exact Himp].
Qed.

Lemma quiet_ret {A : Type} (a : A) : quiet (ret a).
Proof. by intros b. Qed.

Lemma quiet_bind {A B : Type} (m : M Block A) (k : A -> M Block B) :
  quiet m -> (forall a, quiet (k a)) -> quiet (x <- m ;; k x).
Proof.
  intros Hm Hk b. specialize (Hm b). unfold bind.
  destruct (m b) as [[a|e] b1]; cbn [snd] in *; [|done].
  by rewrite (Hk a b1).
Qed.

Lemma quiet_f_write s : quiet (f_write s).
Proof. intros b. unfold f_write. by destruct (encodable s). Qed.

Lemma quiet_now env : quiet (in_block (now_isoformat env)).
Proof. by intros b. Qed.

Lemma quiet_for_each {X : Type} (xs : list X) (body : X -> M Block unit) :
  (forall x, quiet (body x)) -> quiet (for_each xs body).
Proof.
  intros Hbody. induction xs as [|x xs IH]; cbn [for_each].
  - apply quiet_ret.
  - apply quiet_bind; [apply Hbody|]. intros _. apply IH.
Qed.

Lemma confined_with_open_w ok p (body : M Block unit) :
  (forall c, ok (WriteFile p c)) -> quiet body ->
  confined ok (with_open_w p body).
Proof.
  intros Hok Hbody. apply confined_bind; [apply confined_ask|].
  intros _ w. specialize (Hbody {| outside := w; buffer := [] |}).
  destruct (body {| outside := w; buffer := [] |}) as [o b].
  cbn [snd events outside] in *. eexists [_]. rewrite Hbody.
  split; [done|]. constructor; [apply Hok|constructor].
Qed.

Ltac quiet_tac :=
  cbv beta zeta;
  lazymatch goal with
  | |- quiet (bind _ _) => apply quiet_bind; [quiet_tac|intros ?; quiet_tac]
  | |- quiet (f_write _) => apply quiet_f_write
  | |- quiet (in_block (now_isoformat _)) => apply quiet_now
  | |- quiet (ret _) => apply quiet_ret
  | |- quiet (for_each _ _) =>
    apply quiet_for_each; intros [? ?]; quiet_tac
  end.

Ltac confined_tac :=
  cbv beta zeta;
  lazymatch goal with
  | |- confined _ (bind _ _) =>
    apply confined_bind; [confined_tac|intros ?; confined_tac]
  | |- confined _ (print _) => apply confined_print; by auto
  | |- confined _ (mkdir_exist_ok _) => apply confined_mkdir; by auto
  | |- confined _ (call _) => apply confined_call
  | |- confined _ (ret _) => apply confined_ret
  | |- confined _ (now_isoformat _) => apply confined_now
  | |- _ => idtac
  end.

(** The Comparator only prints. *)
Lemma compare_methods_confined ok env pdf_path :
  (forall line, ok (Print line)) ->
  confined ok (compare_methods env pdf_path).
Proof.
  intros Hok. unfold compare_methods. confined_tac.
  apply confined_for_each. intros [m r] _. confined_tac.
Qed.

(** The Persister creates [output_dir] and opens files of entries
    that qualify, whatever happens. *)
Lemma save_results_confined env pdf_name (results : dict ExtractionResult)
  output_dir :
  confined
    (fun ev =>
       match ev with
       | Print _ => True
       | Mkdir p => p = output_dir
       | WriteFile p _ =>
         exists m r,
           (m, r) ∈ results /\ qualifies r = true
           /\ p = output_file output_dir pdf_name m
       end)
    (save_results env pdf_name results output_dir).
Proof.
  unfold save_results. confined_tac.
  apply confined_for_each. intros [m r] Hin.
  change (success r && truthy (strip (text r))) with (qualifies r).
  destruct (qualifies r) eqn:Hq; confined_tac.
  apply confined_with_open_w; [|quiet_tac].
  intros c. by exists m, r.
Qed.

Lemma main_confined env : confined in_output_dir (main env).
Proof.
  unfold main. confined_tac.
  destruct (PDF_DIR_exists env); cbn [negb]; confined_tac.
  destruct (PDF_DIR_glob env) as [|name names]; cbn [map]; confined_tac.
  - apply confined_for_fold. intros acc pdf_file _. confined_tac.
    + by apply compare_methods_confined.
    + eapply confined_weaken; [|apply save_results_confined].
      intros [l|p|p c]; cbn; [done|done|].
      intros (m & r & _ & _ & ->). by eexists.
  - apply confined_with_open_w; [|quiet_tac].
    intros c. by eexists.
Qed.

(** ** Rules for statements that raise *)

Lemma bind_raise {S A B : Type} (m : M S A) (k : A -> M S B) s e s' :
  m s = (Raise e, s') -> (x <- m ;; k x) s = (Raise e, s').
Proof. intros H. unfold bind. by rewrite H. Qed.

(** A statement that returns, then whatever comes next. *)
Lemma runs_then {A B : Type} (m : M World A) (k : A -> M World B)
  w a n t res :
  runs m w a n t ->
  k a {| events := events w ++ n; clock := clock w + t;
         fs_reply := fs_reply w |} = res ->
  (x <- m ;; k x) w = res.
Proof. unfold runs, bind. by intros -> <-. Qed.

Lemma block_then {A B : Type} (m : M Block A) (k : A -> M Block B)
  b a t c res :
  block_runs m b a t c ->
  k a {| outside := {| events := events (outside b);
                       clock := clock (outside b) + t;
                       fs_reply := fs_reply (outside b) |};
         buffer := buffer b ++ c |} = res ->
  (x <- m ;; k x) b = res.
Proof. unfold block_runs, bind. by intros -> <-. Qed.

Lemma f_write_raise s b :
  encodable s = false -> f_write s b = (Raise (unicode_encode_error s), b).
Proof. intros H. unfold f_write. by rewrite H. Qed.

Lemma mkdir_raise p w e :
  fs_reply w (events w) (Request_mkdir p) = Raise e ->
  mkdir_exist_ok p w = (Raise e, w).
Proof. intros H. unfold mkdir_exist_ok, bind, ask. by rewrite H. Qed.

(** The file was opened, the block raised: the file keeps what was
    written before. *)
Lemma with_open_w_raise p (body : M Block unit) w e b :
  fs_reply w (events w) (Request_open_w p) = Return tt ->
  body {| outside := w; buffer := [] |} = (Raise e, b) ->
  with_open_w p body w
  = (Raise e, {| events := events (outside b) ++ [WriteFile p (buffer b)];
                 clock := clock (outside b);
                 fs_reply := fs_reply (outside b) |}).
Proof.
  intros Hopen Hbody. unfold with_open_w, bind, ask.
  by rewrite Hopen, Hbody.
Qed.

Lemma for_each_app {S X : Type} (pre post : list X) (body : X -> M S unit) s :
  for_each (pre ++ post) body s
  = (for_each pre body ;; for_each post body) s.
Proof.
  revert s. induction pre as [|x pre IH]; intros s; [done|].
  cbn [app for_each]. unfold bind in *.
  destruct (body x s) as [[[]|e] s']; [|done].
  by rewrite IH.
Qed.

(** An entry that qualifies and whose text cannot be encoded: the file
    is left with the header, and no line is printed. *)
Lemma save_entry_raises env pdf_name output_dir m r w :
  fs_reply w (events w)
    (Request_open_w (output_file output_dir pdf_name m)) = Return tt ->
  encodable pdf_name = true ->
  (forall n, encodable (isoformat_now env n) = true) ->
  qualifies r = true ->
  encodable (method r) = true ->
  encodable (text r) = false ->
  save_entry env pdf_name output_dir (m, r) w
  = (Raise (unicode_encode_error (text r)),
     {| events := events w
                  ++ [WriteFile (output_file output_dir pdf_name m)
                        (output_header r pdf_name
                           (isoformat_now env (clock w)))];
        clock := S (clock w);
        fs_reply := fs_reply w |}).
Proof.
  intros Hopen Hname Hnow Hq Hm Ht. unfold save_entry. cbv zeta.
  change (success r && truthy (strip (text r))) with (qualifies r).
  rewrite Hq. apply bind_raise.
  erewrite with_open_w_raise; [|exact Hopen|].
  2: { do 2 (eapply block_then; [block_stmts|];
             cbn [outside buffer events clock fs_reply]).
       eapply block_then; [apply block_now|].
       cbn [outside buffer events clock fs_reply].
       do 4 (eapply block_then; [block_stmts|];
             cbn [outside buffer events clock fs_reply]).
       by apply f_write_raise. }
  cbn [outside buffer events clock fs_reply]. f_equal. f_equal.
  - unfold output_file, output_header.
    rewrite !Nat.add_0_r, !app_nil_r, app_nil_l.
    by rewrite <- !app_assoc.
  - lia.
Qed.

(** ** The per-page sequence *)

Lemma entries_from_lookup {B : Type} (mk : nat -> B -> PageEntry) start
  (ys : list B) i e :
  entries_from mk start ys !! i = Some e ->
  exists y, ys !! i = Some y /\ e = mk (start + i) y.
Proof.
  revert start i. induction ys as [|y ys IH]; intros start i; simpl; [done|].
  destruct i as [|i]; simpl.
  - intros [= <-]. exists y. by rewrite Nat.add_0_r.
  - intros H. apply IH in H as (y' & Hy & ->). exists y'.
    by rewrite Nat.add_succ_r.
Qed.

Lemma extractor_pages env pdf_path r :
  extract_with_pymupdf env pdf_path = Return r
  \/ extract_with_pdfplumber env pdf_path = Return r
  \/ extract_with_ocr env pdf_path = Return r ->
  exists (B : Type) (mk : nat -> B -> PageEntry) (ys : list B),
    pages r = entries_from mk 0 ys
    /\ forall i y, page (mk i y) = i + 1
                   /\ char_count (mk i y) = len (page_text (mk i y)).
Proof.
  rewrite extract_with_pymupdf_eq, extract_with_pdfplumber_eq,
    extract_with_ocr_eq.
  intros [[= <-]|[[= <-]|[= <-]]].
  - by eexists str, text_entry, _.
  - by eexists _, plumber_entry, _.
  - unfold ocr_result.
    destruct (import_pytesseract env); [|by exists str, text_entry, []].
    destruct (import_pdf2image env); [|by exists str, text_entry, []].
    destruct (convert_from_path env pdf_path) as [images|];
      [|by exists str, text_entry, []].
    destruct (first_raise (ocr_read env) images);
      by eexists str, text_entry, _.
Qed.

(** C10. In the result of any of the three extractors, failed or not,
    the i-th entry of [pages] (from 0) has page number [i + 1] and a
    [char_count] equal to the length of its text: the page numbers are
    consecutive from 1, in document order. *)
Theorem page_entries_numbered env pdf_path r i e :
  extract_with_pymupdf env pdf_path = Return r
  \/ extract_with_pdfplumber env pdf_path = Return r
  \/ extract_with_ocr env pdf_path = Return r ->
  pages r !! i = Some e ->
  page e = i + 1 /\ char_count e = len (page_text e).
Proof.
  intros Hr He.
  destruct (extractor_pages env pdf_path r Hr) as (B & mk & ys & Hp & Hmk).
  rewrite Hp in He. apply entries_from_lookup in He as (y & _ & ->).
  apply Hmk.
Qed.

Lemma page_entries_numbered_witness :
  extract_with_pdfplumber sample_env (sample_path "a.pdf")
  = Return (pdfplumber_result sample_env (sample_path "a.pdf"))
  /\ pages (pdfplumber_result sample_env (sample_path "a.pdf")) !! 0
     = Some (plumber_entry 0 (U "Hello", []))
  /\ page (plumber_entry 0 (U "Hello", [])) = 0 + 1
  /\ char_count (plumber_entry 0 (U "Hello", []))
     = len (page_text (plumber_entry 0 (U "Hello", []))).
Proof.
  assert (H1 : extract_with_pdfplumber sample_env (sample_path "a.pdf")
               = Return (pdfplumber_result sample_env (sample_path "a.pdf")))
    by (vm_compute; reflexivity).
  assert (H2 : pages (pdfplumber_result sample_env (sample_path "a.pdf")) !! 0
               = Some (plumber_entry 0 (U "Hello", [])))
    by (vm_compute; reflexivity).
  split; [exact H1|]. split; [exact H2|].
  exact (page_entries_numbered sample_env (sample_path "a.pdf") _ 0 _
           (or_intror (or_introl H1)) H2).
Defined.

(** ** Error capture in the text-layer extractors *)

Lemma results_for_eq env pdf_path :
  exists rA rB,
    extract_with_pymupdf env pdf_path = Return rA
    /\ extract_with_pdfplumber env pdf_path = Return rB
    /\ results_for env pdf_path = [(U "pymupdf", rA); (U "pdfplumber", rB)].
Proof.
  exists (pymupdf_result env pdf_path), (pdfplumber_result env pdf_path).
  by rewrite extract_with_pymupdf_eq, extract_with_pdfplumber_eq.
Qed.

(** C2. Each text-layer extractor returns a result; no exception leaves
    it.  The result has [success = true] when opening and reading raise
    nothing; when they raise [e], it has [success = false] and [error]
    is [str(e)].  The Comparator returns the results of both extractors,
    whatever either of them met. *)
Theorem text_layer_errors_are_captured env pdf_path :
  (exists r,
     extract_with_pymupdf env pdf_path = Return r
     /\ match pymupdf_read_error env pdf_path with
        | None => success r = true
        | Some e => success r = false /\ error r = Some (exn_str e)
        end)
  /\ (exists r,
        extract_with_pdfplumber env pdf_path = Return r
        /\ match pdfplumber_read_error env pdf_path with
           | None => success r = true
           | Some e => success r = false /\ error r = Some (exn_str e)
           end)
  /\ (forall w, exists rA rB w',
        extract_with_pymupdf env pdf_path = Return rA
        /\ extract_with_pdfplumber env pdf_path = Return rB
        /\ compare_methods env pdf_path w
           = (Return [(U "pymupdf", rA); (U "pdfplumber", rB)], w')).
Proof.
  split; [|split].
  - exists (pymupdf_result env pdf_path).
    split; [apply extract_with_pymupdf_eq|].
    unfold pymupdf_result. simpl.
    by destruct (pymupdf_read_error env pdf_path).
  - exists (pdfplumber_result env pdf_path).
    split; [apply extract_with_pdfplumber_eq|].
    unfold pdfplumber_result. simpl.
    by destruct (pdfplumber_read_error env pdf_path).
  - intros w.
    destruct (results_for_eq env pdf_path) as (rA & rB & HA & HB & Hres).
    destruct (compare_methods_runs env pdf_path w) as (new & ticks & Hrun & _).
    exists rA, rB. eexists. rewrite <- Hres. by split; [|split].
Qed.

Example pymupdf_failure_is_recorded :
  pymupdf_read_error sample_env (sample_path "b.pdf") = Some sample_exn
  /\ extract_with_pymupdf sample_env (sample_path "b.pdf")
     = Return {| method := U "PyMuPDF (직접 추출)"; text := []; pages := [];
                 tables := None; success := false;
                 error := Some (U "cannot open broken file"); note := None |}
  /\ success (pdfplumber_result sample_env (sample_path "b.pdf")) = true.
Proof. vm_compute. by repeat split. Qed.

(** An exception of [extract_tables] on the second page: the entry of
    the first page stays in [pages], the text stays empty. *)
Example pdfplumber_failure_keeps_pages :
  extract_with_pdfplumber sample_env (sample_path "a.pdf")
  = Return {| method := U "pdfplumber (직접 추출)"; text := [];
              pages := [ {| page := 1; page_text := U "Hello";
                            char_count := 5; table_count := Some 0 |} ];
              tables := Some []; success := false;
              error := Some (U "cannot open broken file"); note := None |}.
Proof. vm_compute. reflexivity. Qed.

(** An exception of [doc.close()] comes after [success] is set. *)
Example pymupdf_close_failure :
  extract_with_pymupdf
    {| os_sep := os_sep sample_env;
       PDF_DIR_exists := true;
       PDF_DIR_glob := [];
       fitz_open := fun _ =>
         Return {| fitz_pages := [Return (U "x")];
                   fitz_close := Raise sample_exn |};
       pdfplumber_open := pdfplumber_open sample_env;
       import_pytesseract := import_pytesseract sample_env;
       import_pdf2image := import_pdf2image sample_env;
       os_path_exists := os_path_exists sample_env;
       tesseract_cmd := tesseract_cmd sample_env;
       convert_from_path := convert_from_path sample_env;
       image_to_string := image_to_string sample_env;
       isoformat_now := isoformat_now sample_env |}
    (sample_path "a.pdf")
  = Return {| method := U "PyMuPDF (직접 추출)"; text := U "x";
              pages := [ {| page := 1; page_text := U "x"; char_count := 1;
                            table_count := None |} ];
              tables := None; success := true;
              error := Some (U "cannot open broken file"); note := None |}.
Proof. vm_compute. reflexivity. Qed.

(** ** The full text of a successful extraction *)

Lemma lstrip_whitespace s : Forall (fun c => isspace c = true) s -> lstrip s = [].
Proof. induction 1 as [|c s Hc _ IH]; simpl; [done|]. by rewrite Hc. Qed.

Lemma strip_whitespace s : Forall (fun c => isspace c = true) s -> strip s = [].
Proof. intros H. unfold strip. by rewrite (lstrip_whitespace s H). Qed.

Lemma join_NL_empty texts :
  Forall (fun t : str => t = []) texts ->
  join NL texts = replicate (length texts - 1) 10%N.
Proof.
  induction 1 as [|t texts -> Hts IH]; [done|].
  destruct texts as [|t' texts]; [done|].
  change (join NL ([] :: t' :: texts)) with (10%N :: join NL (t' :: texts)).
  rewrite IH. simpl. by rewrite Nat.sub_0_r.
Qed.

Lemma strip_newlines n : strip (replicate n 10%N) = [].
Proof.
  apply strip_whitespace, Forall_forall. by intros c ->%elem_of_replicate_inv.
Qed.

Lemma or_empty_default x : or_empty x = default [] x.
Proof. by destruct x as [[|c t]|]. Qed.

Lemma read_all_ok {A B : Type} (read : A -> outcome B) xs ys :
  Forall2 (fun x y => read x = Return y) xs ys ->
  read_ok read xs = ys /\ first_raise read xs = None.
Proof.
  induction 1 as [|x y xs ys Hx _ [IH1 IH2]]; simpl; [done|].
  by rewrite Hx, IH1, IH2.
Qed.

(** C7. When a text-layer extractor opens the document and reads every
    page, it succeeds and its full text is the page texts joined with a
    newline, in page order; pdfplumber's [None] counts as the empty
    string.  If no page has any text, the result is a success whose text
    is made of the separators only and is empty once stripped. *)
Theorem full_text_joins_pages env pdf_path :
  (forall doc texts,
     fitz_open env pdf_path = Return doc ->
     fitz_pages doc = Return <$> texts ->
     exists r,
       extract_with_pymupdf env pdf_path = Return r
       /\ success r = true
       /\ text r = join NL texts
       /\ page_text <$> pages r = texts
       /\ (Forall (fun t => t = []) texts ->
           text r = replicate (length texts - 1) 10%N /\ strip (text r) = []))
  /\ (forall pgs (reads : list (option str * list table)),
        pdfplumber_open env pdf_path = Return pgs ->
        Forall2 (fun pg rd => extract_text pg = Return rd.1
                              /\ extract_tables pg = Return rd.2) pgs reads ->
        exists r,
          extract_with_pdfplumber env pdf_path = Return r
          /\ success r = true
          /\ text r = join NL (default [] <$> reads.*1)
          /\ page_text <$> pages r = default [] <$> reads.*1
          /\ (Forall (fun rd => rd.1 = None \/ rd.1 = Some []) reads ->
              text r = replicate (length reads - 1) 10%N
              /\ strip (text r) = [])).
Proof.
  split.
  - intros doc texts Hopen Hpages.
    exists (pymupdf_result env pdf_path).
    split; [apply extract_with_pymupdf_eq|].
    destruct (read_all_ok id (fitz_pages doc) texts) as [Hok Hnone].
    { rewrite Hpages. clear. induction texts; by constructor. }
    unfold pymupdf_result, pymupdf_read_error. rewrite Hopen, Hok, Hnone. simpl.
    split; [done|]. split; [done|]. split.
    + clear. generalize 0. induction texts as [|t texts IH]; intros n; [done|].
      simpl. by rewrite IH.
    + intros Hempty. rewrite (join_NL_empty texts Hempty).
      split; [done|apply strip_newlines].
  - intros pgs reads Hopen Hreads.
    exists (pdfplumber_result env pdf_path).
    split; [apply extract_with_pdfplumber_eq|].
    destruct (read_all_ok plumber_read pgs
                ((fun rd => (default [] rd.1, rd.2)) <$> reads))
      as [Hok Hnone].
    { clear Hopen. induction Hreads as [|pg rd pgs reads [Ht Htb] _ IH];
        [constructor|].
      rewrite fmap_cons. constructor; [|done].
      unfold plumber_read. by rewrite Ht, Htb, or_empty_default. }
    unfold pdfplumber_result, pdfplumber_read_error.
    rewrite Hopen, Hok, Hnone. cbn [success text pages].
    assert (Hfst : ((fun rd : option str * list table =>
                       (default [] rd.1, rd.2)) <$> reads).*1
                   = default [] <$> reads.*1).
    { clear. induction reads as [|rd reads IH]; [done|].
      rewrite !fmap_cons, IH. done. }
    rewrite Hfst. split; [done|]. split; [done|]. split.
    + rewrite <- Hfst. clear. generalize 0.
      induction reads as [|rd reads IH]; intros n; [done|].
      rewrite !fmap_cons. simpl. by rewrite IH.
    + intros Hempty. rewrite join_NL_empty.
      * rewrite !length_fmap. split; [done|apply strip_newlines].
      * clear -Hempty. induction Hempty as [|rd reads Hrd _ IH]; [constructor|].
        rewrite !fmap_cons. constructor; [|done].
        by destruct Hrd as [-> | ->].
Qed.

Lemma full_text_joins_pages_witness :
  (fitz_open sample_env (sample_path "c.pdf") = Return scan_doc
   /\ fitz_pages scan_doc = Return <$> scan_texts
   /\ Forall (fun t => t = []) scan_texts
   /\ exists r,
        extract_with_pymupdf sample_env (sample_path "c.pdf") = Return r
        /\ success r = true /\ text r = [10%N] /\ strip (text r) = [])
  /\ (pdfplumber_open sample_env (sample_path "c.pdf") = Return scan_pages
      /\ Forall2 (fun pg rd => extract_text pg = Return rd.1
                               /\ extract_tables pg = Return rd.2)
           scan_pages scan_reads
      /\ Forall (fun rd => rd.1 = None \/ rd.1 = Some []) scan_reads
      /\ exists r,
           extract_with_pdfplumber sample_env (sample_path "c.pdf") = Return r
           /\ success r = true /\ text r = [10%N] /\ strip (text r) = []).
Proof.
  assert (H1 : fitz_open sample_env (sample_path "c.pdf") = Return scan_doc)
    by (vm_compute; reflexivity).
  assert (H2 : fitz_pages scan_doc = Return <$> scan_texts) by reflexivity.
  assert (H3 : Forall (fun t : str => t = []) scan_texts)
    by (repeat constructor).
  assert (H4 : pdfplumber_open sample_env (sample_path "c.pdf")
               = Return scan_pages)
    by (vm_compute; reflexivity).
  assert (H5 : Forall2 (fun pg rd => extract_text pg = Return rd.1
                                     /\ extract_tables pg = Return rd.2)
                 scan_pages scan_reads)
    by (repeat constructor).
  assert (H6 : Forall (fun rd : option str * list table =>
                         rd.1 = None \/ rd.1 = Some []) scan_reads)
    by (repeat constructor; simpl; auto).
  destruct (full_text_joins_pages sample_env (sample_path "c.pdf")) as [HA HB].
  split.
  - split; [exact H1|]. split; [exact H2|]. split; [exact H3|].
    destruct (HA scan_doc scan_texts H1 H2) as (r & Hr & Hs & Ht & _ & Hempty).
    destruct (Hempty H3) as [Htext Hstrip].
    exists r. by repeat split.
  - split; [exact H4|]. split; [exact H5|]. split; [exact H6|].
    destruct (HB scan_pages scan_reads H4 H5)
      as (r & Hr & Hs & Ht & _ & Hempty).
    destruct (Hempty H6) as [Htext Hstrip].
    exists r. by repeat split.
Defined.

(** ** Failed results in the summary *)

Lemma text_of_pymupdf a b :
  text_of [(U "pymupdf", a); (U "pdfplumber", b)] (U "pymupdf") = text a.
Proof. unfold text_of. cbn [dict_get]. by rewrite decide_True. Qed.

Lemma text_of_pdfplumber a b :
  text_of [(U "pymupdf", a); (U "pdfplumber", b)] (U "pdfplumber") = text b.
Proof.
  unfold text_of. cbn [dict_get]. rewrite decide_False.
  - by rewrite decide_True.
  - intros H. vm_compute in H. discriminate.
Qed.

(** The row of a file is a function of its name and of the two text
    lengths. *)
Lemma summary_row_eq pdf_name a b :
  summary_row pdf_name [(U "pymupdf", a); (U "pdfplumber", b)]
  = ljust 50 (short_name pdf_name) ++ U " "
    ++ rjust 12 (format_comma (len (text a))) ++ U " "
    ++ rjust 12 (format_comma (len (text b))) ++ NL.
Proof. unfold summary_row. by rewrite text_of_pymupdf, text_of_pdfplumber. Qed.

Lemma failed_text_empty env pdf_path r :
  extract_with_pymupdf env pdf_path = Return r
  \/ extract_with_pdfplumber env pdf_path = Return r
  \/ extract_with_ocr env pdf_path = Return r ->
  success r = false -> text r = [].
Proof.
  rewrite extract_with_pymupdf_eq, extract_with_pdfplumber_eq,
    extract_with_ocr_eq.
  intros [[= <-]|[[= <-]|[= <-]]].
  - unfold pymupdf_result. simpl.
    by destruct (pymupdf_read_error env pdf_path).
  - unfold pdfplumber_result. simpl.
    by destruct (pdfplumber_read_error env pdf_path).
  - unfold ocr_result.
    destruct (import_pytesseract env); [|done].
    destruct (import_pdf2image env); [|done].
    destruct (convert_from_path env pdf_path) as [images|]; [|done].
    by destruct (first_raise (ocr_read env) images).
Qed.

(** C9. A result with [success = false], from any extractor, has the
    empty string as its text.  In the summary its column therefore shows
    0, and the row is the same as with a successful result whose text is
    empty: the table does not tell a failure from an empty text layer. *)
Theorem failed_result_counts_zero env pdf_path r pdf_name other empty_ok :
  extract_with_pymupdf env pdf_path = Return r
  \/ extract_with_pdfplumber env pdf_path = Return r
  \/ extract_with_ocr env pdf_path = Return r ->
  success r = false ->
  success empty_ok = true -> text empty_ok = [] ->
  text r = []
  /\ summary_row pdf_name [(U "pymupdf", r); (U "pdfplumber", other)]
     = ljust 50 (short_name pdf_name) ++ U " " ++ rjust 12 (U "0") ++ U " "
       ++ rjust 12 (format_comma (len (text other))) ++ NL
  /\ summary_row pdf_name [(U "pymupdf", other); (U "pdfplumber", r)]
     = ljust 50 (short_name pdf_name) ++ U " "
       ++ rjust 12 (format_comma (len (text other))) ++ U " "
       ++ rjust 12 (U "0") ++ NL
  /\ summary_row pdf_name [(U "pymupdf", r); (U "pdfplumber", other)]
     = summary_row pdf_name [(U "pymupdf", empty_ok); (U "pdfplumber", other)]
  /\ summary_row pdf_name [(U "pymupdf", other); (U "pdfplumber", r)]
     = summary_row pdf_name [(U "pymupdf", other); (U "pdfplumber", empty_ok)].
Proof.
  intros Hr Hfail _ Hempty.
  pose proof (failed_text_empty env pdf_path r Hr Hfail) as Htext.
  rewrite !summary_row_eq, Htext, Hempty. by repeat split.
Qed.

Lemma failed_result_counts_zero_witness :
  extract_with_pymupdf sample_env (sample_path "b.pdf")
  = Return (pymupdf_result sample_env (sample_path "b.pdf"))
  /\ success (pymupdf_result sample_env (sample_path "b.pdf")) = false
  /\ success (pdfplumber_result sample_env (sample_path "b.pdf")) = true
  /\ text (pdfplumber_result sample_env (sample_path "b.pdf")) = []
  /\ text (pymupdf_result sample_env (sample_path "b.pdf")) = []
  /\ summary_row (U "b.pdf")
       [(U "pymupdf", pymupdf_result sample_env (sample_path "b.pdf"));
        (U "pdfplumber", pdfplumber_result sample_env (sample_path "b.pdf"))]
     = summary_row (U "b.pdf")
         [(U "pymupdf", pdfplumber_result sample_env (sample_path "b.pdf"));
          (U "pdfplumber", pdfplumber_result sample_env (sample_path "b.pdf"))].
Proof.
  assert (H1 : extract_with_pymupdf sample_env (sample_path "b.pdf")
               = Return (pymupdf_result sample_env (sample_path "b.pdf")))
    by (vm_compute; reflexivity).
  assert (H2 : success (pymupdf_result sample_env (sample_path "b.pdf")) = false)
    by (vm_compute; reflexivity).
  assert (H3 : success (pdfplumber_result sample_env (sample_path "b.pdf")) = true)
    by (vm_compute; reflexivity).
  assert (H4 : text (pdfplumber_result sample_env (sample_path "b.pdf")) = [])
    by (vm_compute; reflexivity).
  destruct (failed_result_counts_zero sample_env (sample_path "b.pdf")
              (pymupdf_result sample_env (sample_path "b.pdf")) (U "b.pdf")
              (pdfplumber_result sample_env (sample_path "b.pdf"))
              (pdfplumber_result sample_env (sample_path "b.pdf"))
              (or_introl H1) H2 H3 H4) as (Ht & _ & _ & Hrow & _).
  split; [exact H1|]. split; [exact H2|].
  split; [exact H3|]. split; [exact H4|]. split; [exact Ht|exact Hrow].
Defined.

(** ** The OCR extractor *)

Lemma ocr_messages_differ (a b : str) :
  U "필요한 라이브러리가 없습니다: " ++ a
  <> U "PDF를 이미지로 변환 실패 (poppler 필요): " ++ b.
Proof. intros H. vm_compute in H. discriminate. Qed.

(** C8. [extract_with_ocr] returns a result whatever the libraries do.
    An [ImportError] of one of its two imports gives [success = false]
    and the missing-library message followed by [str(e)]; an exception
    of the conversion to images gives [success = false] and the
    conversion message followed by [str(e)].  No message of the first
    kind equals a message of the second kind. *)
Theorem ocr_failures_are_told_apart env pdf_path :
  (exists r, extract_with_ocr env pdf_path = Return r)
  /\ (forall e,
        exn_class e = ImportError ->
        import_pytesseract env = Raise e
        \/ (import_pytesseract env = Return tt
            /\ import_pdf2image env = Raise e) ->
        exists r,
          extract_with_ocr env pdf_path = Return r
          /\ success r = false
          /\ error r = Some (U "필요한 라이브러리가 없습니다: " ++ exn_str e))
  /\ (forall e,
        import_pytesseract env = Return tt ->
        import_pdf2image env = Return tt ->
        convert_from_path env pdf_path = Raise e ->
        exists r,
          extract_with_ocr env pdf_path = Return r
          /\ success r = false
          /\ error r = Some (U "PDF를 이미지로 변환 실패 (poppler 필요): "
                             ++ exn_str e))
  /\ (forall e1 e2,
        U "필요한 라이브러리가 없습니다: " ++ exn_str e1
        <> U "PDF를 이미지로 변환 실패 (poppler 필요): " ++ exn_str e2).
Proof.
  split; [|split; [|split]].
  - eexists. apply extract_with_ocr_eq.
  - intros e Hclass Himport. exists (ocr_result env pdf_path).
    split; [apply extract_with_ocr_eq|].
    unfold ocr_result, ocr_handler_message.
    destruct Himport as [-> | [-> ->]]; by rewrite Hclass.
  - intros e H1 H2 Hconv. exists (ocr_result env pdf_path).
    split; [apply extract_with_ocr_eq|].
    unfold ocr_result. by rewrite H1, H2, Hconv.
  - intros e1 e2. apply ocr_messages_differ.
Qed.

Lemma ocr_failures_are_told_apart_witness :
  (exn_class sample_import_exn = ImportError
   /\ import_pytesseract sample_env_no_ocr = Raise sample_import_exn
   /\ exists r,
        extract_with_ocr sample_env_no_ocr (sample_path "a.pdf") = Return r
        /\ success r = false
        /\ error r = Some (U "필요한 라이브러리가 없습니다: "
                           ++ exn_str sample_import_exn))
  /\ (import_pytesseract sample_env = Return tt
      /\ import_pdf2image sample_env = Return tt
      /\ convert_from_path sample_env (sample_path "a.pdf") = Raise sample_exn
      /\ exists r,
           extract_with_ocr sample_env (sample_path "a.pdf") = Return r
           /\ success r = false
           /\ error r = Some (U "PDF를 이미지로 변환 실패 (poppler 필요): "
                              ++ exn_str sample_exn)).
Proof.
  assert (H1 : exn_class sample_import_exn = ImportError) by reflexivity.
  assert (H2 : import_pytesseract sample_env_no_ocr = Raise sample_import_exn)
    by reflexivity.
  assert (H3 : import_pytesseract sample_env = Return tt) by reflexivity.
  assert (H4 : import_pdf2image sample_env = Return tt) by reflexivity.
  assert (H5 : convert_from_path sample_env (sample_path "a.pdf")
               = Raise sample_exn) by reflexivity.
  split.
  - split; [exact H1|]. split; [exact H2|].
    destruct (ocr_failures_are_told_apart sample_env_no_ocr
                (sample_path "a.pdf")) as (_ & Hmissing & _).
    exact (Hmissing sample_import_exn H1 (or_introl H2)).
  - split; [exact H3|]. split; [exact H4|]. split; [exact H5|].
    destruct (ocr_failures_are_told_apart sample_env (sample_path "a.pdf"))
      as (_ & _ & Hconv & _).
    exact (Hconv sample_exn H3 H4 H5).
Defined.

(** An exception of the OCR call itself, on the second page. *)
Example ocr_failure_keeps_pages :
  extract_with_ocr
    {| os_sep := os_sep sample_env;
       PDF_DIR_exists := true;
       PDF_DIR_glob := [];
       fitz_open := fitz_open sample_env;
       pdfplumber_open := pdfplumber_open sample_env;
       import_pytesseract := Return tt;
       import_pdf2image := Return tt;
       os_path_exists := fun p =>
         bool_decide (p = U "C:\Program Files (x86)\Tesseract-OCR\tesseract.exe");
       tesseract_cmd := U "tesseract";
       convert_from_path := fun _ => Return [1%N; 2%N];
       image_to_string := fun cmd img _ _ =>
         if (img =? 1)%N then Return cmd else Raise sample_exn;
       isoformat_now := isoformat_now sample_env |}
    (sample_path "a.pdf")
  = Return {| method := U "OCR (pytesseract)"; text := [];
              pages := [ text_entry 0
                           (U "C:\Program Files (x86)\Tesseract-OCR\tesseract.exe") ];
              tables := None; success := false;
              error := Some (U "cannot open broken file");
              note := Some (U "Tesseract OCR이 설치되어 있어야 합니다.") |}.
Proof. vm_compute. reflexivity. Qed.

(** ** The name column of the summary *)

(** C6. In a row of the summary, a name of more than 50 characters
    appears as its first 47 characters followed by three dots, 50
    characters in all and no padding; a name of at most 50 characters
    appears unchanged, padded with spaces to the width of the column. *)
Theorem long_names_are_shortened pdf_name results :
  summary_row pdf_name results
  = ljust 50 (short_name pdf_name) ++ U " "
    ++ rjust 12 (format_comma (len (text_of results (U "pymupdf")))) ++ U " "
    ++ rjust 12 (format_comma (len (text_of results (U "pdfplumber")))) ++ NL
  /\ (50 < len pdf_name ->
      short_name pdf_name = take 47 pdf_name ++ U "..."
      /\ len (short_name pdf_name) = 50
      /\ ljust 50 (short_name pdf_name) = take 47 pdf_name ++ U "...")
  /\ (len pdf_name <= 50 ->
      short_name pdf_name = pdf_name
      /\ ljust 50 (short_name pdf_name)
         = pdf_name ++ replicate (50 - len pdf_name) 32%N).
Proof.
  split; [done|]. unfold short_name, slice_to, len. split.
  - intros Hlong. rewrite (proj2 (Nat.ltb_lt _ _) Hlong).
    assert (Hlen : length (take 47 pdf_name ++ U "...") = 50).
    { rewrite length_app, length_take_le by lia. by vm_compute. }
    split; [done|]. split; [done|].
    unfold ljust, len. rewrite Hlen. simpl. by rewrite app_nil_r.
  - intros Hshort. by rewrite (proj2 (Nat.ltb_ge _ _) Hshort).
Qed.

Lemma long_names_are_shortened_witness :
  (50 < len long_pdf_name
   /\ short_name long_pdf_name
      = U "2023_annual_report_of_the_far_east_trade_missio..."
   /\ len (short_name long_pdf_name) = 50)
  /\ (len (U "a.pdf") <= 50
      /\ short_name (U "a.pdf") = U "a.pdf"
      /\ ljust 50 (short_name (U "a.pdf"))
         = U "a.pdf" ++ replicate (50 - len (U "a.pdf")) 32%N).
Proof.
  assert (H1 : 50 < len long_pdf_name)
    by (apply Nat.ltb_lt; vm_compute; reflexivity).
  assert (H2 : len (U "a.pdf") <= 50)
    by (apply Nat.leb_le; vm_compute; reflexivity).
  split.
  - split; [exact H1|].
    destruct (long_names_are_shortened long_pdf_name sample_results)
      as (_ & Hlong & _).
    destruct (Hlong H1) as (Hname & Hlen & _).
    split; [|exact Hlen]. rewrite Hname. vm_compute. reflexivity.
  - split; [exact H2|].
    destruct (long_names_are_shortened (U "a.pdf") sample_results)
      as (_ & _ & Hshort).
    exact (Hshort H2).
Defined.

(** ** A run without input *)

Lemma fs_after_app fs evs1 evs2 :
  fs_after fs (evs1 ++ evs2) = fs_after (fs_after fs evs1) evs2.
Proof. apply foldl_app. Qed.

(** C5. If the input directory is missing or holds no file matching
    [*.pdf], [main] prints its banner and a line that starts with
    [오류: ] and returns: no directory is created, no file is opened for
    writing, and the file system is as it was. *)
Theorem no_input_writes_nothing env w :
  PDF_DIR_exists env = false \/ PDF_DIR_glob env = [] ->
  exists w' msg,
    main env w = (Return tt, w')
    /\ events w'
       = events w ++ [ Print (NL ++ times (U "=") 60);
                       Print (U "PDF 텍스트 추출기 - 방법 비교");
                       Print (times (U "=") 60);
                       Print msg ]
    /\ startswith msg (U "오류: ") = true
    /\ created_dirs (drop (length (events w)) (events w')) = []
    /\ written (drop (length (events w)) (events w')) = []
    /\ forall fs, fs_after fs (drop (length (events w)) (events w')) = fs.
Proof.
  intros Hnone.
  assert (Hrun : exists msg ticks,
    runs (main env) w tt
      ([Print (NL ++ times (U "=") 60)]
       ++ [Print (U "PDF 텍스트 추출기 - 방법 비교")]
       ++ [Print (times (U "=") 60)] ++ [Print msg]) ticks
    /\ startswith msg (U "오류: ") = true).
  { unfold main. destruct (PDF_DIR_exists env) eqn:Hex; simpl negb; cbv iota.
    - destruct Hnone as [?|Hglob]; [done|]. rewrite Hglob. simpl map.
      eexists _, _. split; [do 4 run_stmt|]. by vm_compute.
    - eexists _, _. split; [do 4 run_stmt|]. by vm_compute. }
  destruct Hrun as (msg & ticks & Hrun & Hmsg).
  eexists _, msg. split; [exact Hrun|]. simpl events.
  split; [done|]. split; [done|].
  rewrite drop_app_length. by repeat split.
Qed.

Lemma no_input_writes_nothing_witness :
  (PDF_DIR_exists sample_env_empty = false \/ PDF_DIR_glob sample_env_empty = [])
  /\ exists w' msg,
       main sample_env_empty world0 = (Return tt, w')
       /\ events w'
          = events world0 ++ [ Print (NL ++ times (U "=") 60);
                               Print (U "PDF 텍스트 추출기 - 방법 비교");
                               Print (times (U "=") 60);
                               Print msg ]
       /\ startswith msg (U "오류: ") = true
       /\ created_dirs (drop (length (events world0)) (events w')) = []
       /\ written (drop (length (events world0)) (events w')) = []
       /\ forall fs, fs_after fs (drop (length (events world0)) (events w')) = fs.
Proof.
  assert (H : PDF_DIR_exists sample_env_empty = false
              \/ PDF_DIR_glob sample_env_empty = [])
    by (right; reflexivity).
  split; [exact H|]. exact (no_input_writes_nothing sample_env_empty world0 H).
Defined.

(** ** The files of the Persister *)

(** Distinct methods of one input file get distinct files. *)
Lemma output_file_inj output_dir pdf_name m1 m2 :
  output_file output_dir pdf_name m1 = output_file output_dir pdf_name m2 ->
  m1 = m2.
Proof.
  unfold output_file, Path_div, output_name.
  intros H. apply app_inv_head in H.
  apply (f_equal (fun l : list str => default [] (head l))) in H.
  cbn [head default] in H.
  do 2 apply app_inv_head in H. by apply app_inv_tail in H.
Qed.

Lemma dict_value_unique {V : Type} (d : dict V) k v1 v2 :
  NoDup (keys d) -> (k, v1) ∈ d -> (k, v2) ∈ d -> v1 = v2.
Proof.
  unfold keys. induction d as [|[k' v'] d IH]; intros Hnd H1 H2.
  - by apply elem_of_nil in H1.
  - rewrite fmap_cons in Hnd. apply NoDup_cons in Hnd as [Hnotin Hnd].
    cbn [fst] in Hnotin.
    apply elem_of_cons in H1 as [H1|H1]; apply elem_of_cons in H2 as [H2|H2].
    + congruence.
    + injection H1 as -> ->. destruct Hnotin.
      by apply (list_elem_of_fmap_2 fst) in H2.
    + injection H2 as -> ->. destruct Hnotin.
      by apply (list_elem_of_fmap_2 fst) in H1.
    + by apply IH.
Qed.

Lemma world0_grants dir : fs_grants world0 dir.
Proof. by split. Qed.

Lemma sample_clock_encodable n : encodable (isoformat_now sample_env n) = true.
Proof. cbn [isoformat_now sample_env]. encodable_tac. Qed.

Lemma sample_results_encodable m r :
  (m, r) ∈ sample_results -> success r = true -> strip (text r) <> [] ->
  encodable (method r) = true /\ encodable (text r) = true.
Proof.
  unfold sample_results.
  intros [[= -> ->]|[[= -> ->]|[]%elem_of_nil]%elem_of_cons]%elem_of_cons _ _;
    by vm_compute.
Qed.




(** On the sample: PyMuPDF read [a.pdf], pdfplumber failed on it, and
    one file is written. *)
Example save_results_sample :
  written (events (save_results sample_env (U "a.pdf") sample_results
                     OUTPUT_DIR world0).2)
  = [[U "추출결과"; U "a_pymupdf.txt"]].
Proof. vm_compute. reflexivity. Qed.

(** ** The summary table *)

Lemma summary_rows_distinct env names :
  NoDup names ->
  Forall2
    (fun name row =>
       exists rA rB,
         extract_with_pymupdf env (Path_div PDF_DIR name) = Return rA
         /\ extract_with_pdfplumber env (Path_div PDF_DIR name) = Return rB
         /\ row = ljust 50 (short_name name) ++ U " "
                  ++ rjust 12 (format_comma (len (text rA))) ++ U " "
                  ++ rjust 12 (format_comma (len (text rB))) ++ NL)
    names (summary_rows (all_results_after env [] names)).
Proof.
  intros Hnd. rewrite all_results_after_fresh; [|done|].
  - rewrite app_nil_l. unfold summary_rows. clear Hnd.
    induction names as [|name names IH]; [constructor|].
    rewrite fmap_cons. cbn [map]. constructor; [|exact IH].
    exists (pymupdf_result env (Path_div PDF_DIR name)),
      (pdfplumber_result env (Path_div PDF_DIR name)).
    split; [apply extract_with_pymupdf_eq|].
    split; [apply extract_with_pdfplumber_eq|]. apply summary_row_eq.
  - intros name _. apply not_elem_of_nil.
Qed.

Lemma sample_env_encodable : run_encodable sample_env.
Proof.
  split; [|split].
  - intros name Hin. cbn [PDF_DIR_glob sample_env] in Hin.
    apply elem_of_cons in Hin as [->|Hin]; [by vm_compute|].
    apply elem_of_cons in Hin as [->|Hin]; [by vm_compute|].
    apply list_elem_of_singleton in Hin as ->. by vm_compute.
  - exact sample_clock_encodable.
  - intros name r Hin Hr _ _. cbn [PDF_DIR_glob sample_env] in Hin.
    rewrite extract_with_pymupdf_eq, extract_with_pdfplumber_eq in Hr.
    apply elem_of_cons in Hin as [->|Hin];
      [by destruct Hr as [[= <-]|[= <-]]; vm_compute|].
    apply elem_of_cons in Hin as [->|Hin];
      [by destruct Hr as [[= <-]|[= <-]]; vm_compute|].
    apply list_elem_of_singleton in Hin as ->.
    by destruct Hr as [[= <-]|[= <-]]; vm_compute.
Qed.




(** The rows of the sample run. *)
Example summary_rows_sample :
  summary_rows (all_results_after sample_env [] (PDF_DIR_glob sample_env))
  = [ U "a.pdf                                                         6            0" ++ NL;
      U "b.pdf                                                         0            0" ++ NL;
      U "c.pdf                                                         1            1" ++ NL ].
Proof. vm_compute. reflexivity. Qed.

(** ** The name of an output file *)

Lemma U_dot_pdf : U ".pdf" = [46; 112; 100; 102]%N.
Proof. vm_compute. reflexivity. Qed.

(** A name that ends in [.pdf] and has no other occurrence of [.pdf]
    loses exactly that suffix. *)
Lemma replace_trailing_pdf stem :
  (forall a b, stem <> a ++ U ".pdf" ++ b) ->
  replace (stem ++ U ".pdf") (U ".pdf") [] = stem.
Proof.
  rewrite U_dot_pdf. unfold replace.
  induction stem as [|c stem IH]; intros Hfree; [done|].
  assert (IH' : replace_from [46; 112; 100; 102]%N [] 0
                  (stem ++ [46; 112; 100; 102]%N) = stem).
  { apply IH. intros a b ->. by apply (Hfree (c :: a) b). }
  assert (Hpre : startswith ((c :: stem) ++ [46; 112; 100; 102]%N)
                   [46; 112; 100; 102]%N = false).
  { destruct stem as [|d [|e [|f stem]]]; cbn [app startswith].
    - destruct (46 =? c)%N; reflexivity.
    - destruct (46 =? c)%N; [|done]. destruct (112 =? d)%N; reflexivity.
    - destruct (46 =? c)%N; [|done]. destruct (112 =? d)%N; [|done].
      destruct (100 =? e)%N; reflexivity.
    - destruct (46 =? c)%N eqn:Hc; [|done].
      destruct (112 =? d)%N eqn:Hd; [|done].
      destruct (100 =? e)%N eqn:He; [|done].
      destruct (102 =? f)%N eqn:Hf; [|done].
      apply N.eqb_eq in Hc, Hd, He, Hf. subst.
      by destruct (Hfree [] stem). }
  change (replace_from [46; 112; 100; 102]%N [] 0
            ((c :: stem) ++ [46; 112; 100; 102]%N))
    with (if startswith ((c :: stem) ++ [46; 112; 100; 102]%N)
               [46; 112; 100; 102]%N
          then [] ++ replace_from [46; 112; 100; 102]%N [] 3
                       (stem ++ [46; 112; 100; 102]%N)
          else c :: replace_from [46; 112; 100; 102]%N [] 0
                      (stem ++ [46; 112; 100; 102]%N)).
  by rewrite Hpre, IH'.
Qed.

(** For such a name the output file is [<stem>_<method>.txt]. *)
Lemma output_file_of_plain_name output_dir stem method_name :
  (forall a b, stem <> a ++ U ".pdf" ++ b) ->
  output_file output_dir (stem ++ U ".pdf") method_name
  = Path_div output_dir (stem ++ U "_" ++ method_name ++ U ".txt").
Proof.
  intros Hfree. unfold output_file, output_name.
  by rewrite replace_trailing_pdf.
Qed.

(** C3. The comment in [save_results] announces the removal of the
    extension, but [replace] removes every occurrence of [.pdf]: for
    [report.pdf.pdf] the output of PyMuPDF is named [report_pymupdf.txt],
    not [report.pdf_pymupdf.txt], and it is the file that the input
    [report.pdf] gets as well. *)
Theorem output_name_drops_every_pdf :
  written (events (save_results sample_env (U "report.pdf.pdf") sample_results
                     OUTPUT_DIR world0).2)
  = [Path_div OUTPUT_DIR (U "report_pymupdf.txt")]
  /\ written (events (save_results sample_env (U "report.pdf") sample_results
                        OUTPUT_DIR world0).2)
     = [Path_div OUTPUT_DIR (U "report_pymupdf.txt")]
  /\ Path_div OUTPUT_DIR (U "report_pymupdf.txt")
     <> Path_div OUTPUT_DIR (U "report.pdf_pymupdf.txt").
Proof.
  split; [vm_compute; reflexivity|]. split; [vm_compute; reflexivity|].
  intros H. vm_compute in H. discriminate H.
Qed.

(** * Further properties of the script *)

(** ** Stripping and the test of [save_results] *)

Lemma lstrip_nil_iff s : lstrip s = [] <-> Forall (fun c => isspace c = true) s.
Proof.
  split; [|apply lstrip_whitespace].
  induction s as [|c s IH]; simpl; [constructor|].
  destruct (isspace c) eqn:Hc; [|done]. intros H. constructor; auto.
Qed.

Lemma strip_nil_iff s : strip s = [] <-> Forall (fun c => isspace c = true) s.
Proof.
  split; [|apply strip_whitespace].
  unfold strip, rstrip. intros H.
  apply (f_equal reverse) in H. rewrite reverse_involutive, reverse_nil in H.
  apply lstrip_nil_iff in H. rewrite Forall_reverse in H.
  destruct (lstrip s) as [|c s'] eqn:Hs; [by apply lstrip_nil_iff|].
  exfalso. apply Forall_cons in H as [Hc _].
  clear -Hs Hc. induction s as [|d s IH]; simpl in Hs; [done|].
  destruct (isspace d) eqn:Hd; [by apply IH|]. congruence.
Qed.

Lemma strip_nonempty_iff s :
  strip s <> [] <-> exists c, c ∈ s /\ isspace c = false.
Proof.
  rewrite strip_nil_iff. split.
  - induction s as [|c s IH]; intros H; [by destruct H; constructor|].
    destruct (isspace c) eqn:Hc.
    + destruct IH as (d & Hin & Hd).
      * intros Hall. apply H. by constructor.
      * exists d. split; [by right|done].
    + exists c. split; [by left|done].
  - intros (c & Hin & Hc) Hall.
    rewrite Forall_forall in Hall. specialize (Hall c Hin). congruence.
Qed.

(** ** Pages read before a failure *)

Lemma read_prefix {A B : Type} (read : A -> outcome B) xs ys bad rest e :
  Forall2 (fun x y => read x = Return y) xs ys ->
  read bad = Raise e ->
  read_ok read (xs ++ bad :: rest) = ys
  /\ first_raise read (xs ++ bad :: rest) = Some e.
Proof.
  intros Hxs Hbad.
  induction Hxs as [|x y xs ys Hx _ [IH1 IH2]]; simpl.
  - by rewrite Hbad.
  - by rewrite Hx, IH1, IH2.
Qed.

Lemma Forall2_fmap_Return (texts : list str) :
  Forall2 (fun (x : outcome str) y => id x = Return y) (Return <$> texts) texts.
Proof. induction texts; by constructor. Qed.

Lemma entries_from_length {B : Type} (mk : nat -> B -> PageEntry) start ys :
  length (entries_from mk start ys) = length ys.
Proof. revert start. induction ys; intros start; simpl; [done|]. by rewrite IHys. Qed.

Lemma entries_from_fmap {B C : Type} (mk : nat -> B -> PageEntry)
  (proj : PageEntry -> C) (f : B -> C) start ys :
  (forall i y, proj (mk i y) = f y) ->
  proj <$> entries_from mk start ys = f <$> ys.
Proof.
  intros Hmk. revert start.
  induction ys as [|y ys IH]; intros start; [done|].
  simpl. by rewrite Hmk, IH.
Qed.

(** X1. When PyMuPDF opens the document and the reading of a page
    raises, the result is a failure with the message of that exception
    and an empty text, but [pages] keeps exactly one entry for each
    page read before, in order, and none for the page that failed or
    for the pages after it, whatever those hold. *)
Theorem pymupdf_keeps_pages_before_failure env pdf_path doc texts e rest :
  fitz_open env pdf_path = Return doc ->
  fitz_pages doc = (Return <$> texts) ++ Raise e :: rest ->
  exists r,
    extract_with_pymupdf env pdf_path = Return r
    /\ success r = false
    /\ error r = Some (exn_str e)
    /\ text r = []
    /\ length (pages r) = length texts
    /\ page_text <$> pages r = texts.
Proof.
  intros Hopen Hpages. exists (pymupdf_result env pdf_path).
  split; [apply extract_with_pymupdf_eq|].
  destruct (read_prefix id (Return <$> texts) texts (Raise e) rest e
              (Forall2_fmap_Return texts) eq_refl) as [Hok Hraise].
  unfold pymupdf_result, pymupdf_read_error.
  rewrite Hopen, Hpages, Hok, Hraise. cbn [success error text pages].
  split; [done|]. split; [done|]. split; [done|].
  split; [apply entries_from_length|].
  rewrite (entries_from_fmap text_entry page_text id) by done.
  apply list_fmap_id.
Qed.

Lemma pymupdf_keeps_pages_before_failure_witness :
  fitz_open (env_with_fitz sample_env (fun _ => Return torn_doc))
    (sample_path "a.pdf") = Return torn_doc
  /\ fitz_pages torn_doc
     = (Return <$> [U "Hello"]) ++ Raise sample_exn :: [Return (U "unread")]
  /\ exists r,
       extract_with_pymupdf (env_with_fitz sample_env (fun _ => Return torn_doc))
         (sample_path "a.pdf") = Return r
       /\ success r = false
       /\ error r = Some (exn_str sample_exn)
       /\ text r = []
       /\ length (pages r) = length [U "Hello"]
       /\ page_text <$> pages r = [U "Hello"].
Proof.
  split; [reflexivity|]. split; [reflexivity|].
  exact (pymupdf_keeps_pages_before_failure
           (env_with_fitz sample_env (fun _ => Return torn_doc))
           (sample_path "a.pdf") torn_doc [U "Hello"] sample_exn
           [Return (U "unread")] eq_refl eq_refl).
Defined.

Lemma plumber_reads_ok pgs (reads : list (option str * list table)) :
  Forall2 (fun pg rd => extract_text pg = Return rd.1
                        /\ extract_tables pg = Return rd.2) pgs reads ->
  Forall2 (fun pg rd => plumber_read pg = Return rd) pgs
    ((fun rd => (default [] rd.1, rd.2)) <$> reads).
Proof.
  induction 1 as [|pg rd pgs reads [Ht Htb] _ IH]; [constructor|].
  rewrite fmap_cons. constructor; [|done].
  unfold plumber_read. by rewrite Ht, Htb, or_empty_default.
Qed.

(** X2. When pdfplumber opens the document and a page fails, in
    [extract_text] or in [extract_tables], the result is a failure with
    the message of that exception and an empty text; [pages] has an
    entry, with its text and its number of tables, for each page before
    the failing one, and none for the failing page even when its text
    had been extracted. *)
Theorem pdfplumber_keeps_pages_before_failure env pdf_path good
  (reads : list (option str * list table)) bad rest e :
  pdfplumber_open env pdf_path = Return (good ++ bad :: rest) ->
  Forall2 (fun pg rd => extract_text pg = Return rd.1
                        /\ extract_tables pg = Return rd.2) good reads ->
  extract_text bad = Raise e
  \/ (exists x, extract_text bad = Return x) /\ extract_tables bad = Raise e ->
  exists r,
    extract_with_pdfplumber env pdf_path = Return r
    /\ success r = false
    /\ error r = Some (exn_str e)
    /\ text r = []
    /\ page_text <$> pages r = default [] <$> reads.*1
    /\ table_count <$> pages r = (fun rd => Some (length rd.2)) <$> reads.
Proof.
  intros Hopen Hgood Hbad. exists (pdfplumber_result env pdf_path).
  split; [apply extract_with_pdfplumber_eq|].
  assert (Hraise : plumber_read bad = Raise e).
  { unfold plumber_read. destruct Hbad as [-> | [[x ->] ->]]; done. }
  destruct (read_prefix plumber_read good _ bad rest e
              (plumber_reads_ok good reads Hgood) Hraise) as [Hok Hfirst].
  unfold pdfplumber_result, pdfplumber_read_error.
  rewrite Hopen, Hok, Hfirst. cbn [success error text pages fmap option_fmap option_map].
  split; [done|]. split; [done|]. split; [done|]. split.
  - rewrite (entries_from_fmap plumber_entry page_text fst) by done.
    rewrite <- !list_fmap_compose. done.
  - rewrite (entries_from_fmap plumber_entry table_count
               (fun rd => Some (length rd.2))) by done.
    rewrite <- list_fmap_compose. done.
Qed.

Lemma pdfplumber_keeps_pages_before_failure_witness :
  pdfplumber_open (env_with_plumber sample_env (fun _ => Return torn_pages))
    (sample_path "a.pdf")
  = Return ([ {| extract_text := Return (Some (U "A B"));
                 extract_tables := Return [ [[Some (U "A"); None]] ] |} ]
            ++ {| extract_text := Raise sample_exn;
                  extract_tables := Return [] |}
               :: [ {| extract_text := Return None;
                       extract_tables := Return [] |} ])
  /\ Forall2 (fun pg rd => extract_text pg = Return rd.1
                           /\ extract_tables pg = Return rd.2)
       [ {| extract_text := Return (Some (U "A B"));
            extract_tables := Return [ [[Some (U "A"); None]] ] |} ]
       [ (Some (U "A B"), [ [[Some (U "A"); None]] ]) ]
  /\ exists r,
       extract_with_pdfplumber
         (env_with_plumber sample_env (fun _ => Return torn_pages))
         (sample_path "a.pdf") = Return r
       /\ success r = false
       /\ error r = Some (exn_str sample_exn)
       /\ text r = []
       /\ page_text <$> pages r = [U "A B"]
       /\ table_count <$> pages r = [Some 1].
Proof.
  assert (H2 : Forall2 (fun pg (rd : option str * list table) =>
                          extract_text pg = Return rd.1
                          /\ extract_tables pg = Return rd.2)
                 [ {| extract_text := Return (Some (U "A B"));
                      extract_tables := Return [ [[Some (U "A"); None]] ] |} ]
                 [ (Some (U "A B"), [ [[Some (U "A"); None]] ]) ])
    by (repeat constructor).
  split; [reflexivity|]. split; [exact H2|].
  exact (pdfplumber_keeps_pages_before_failure
           (env_with_plumber sample_env (fun _ => Return torn_pages))
           (sample_path "a.pdf")
           [ {| extract_text := Return (Some (U "A B"));
                extract_tables := Return [ [[Some (U "A"); None]] ] |} ]
           [ (Some (U "A B"), [ [[Some (U "A"); None]] ]) ]
           {| extract_text := Raise sample_exn; extract_tables := Return [] |}
           [ {| extract_text := Return None; extract_tables := Return [] |} ]
           sample_exn eq_refl H2 (or_introl eq_refl)).
Defined.

(** X3. When PyMuPDF opens the document and reads every page, the
    result is a success with the full text whatever [doc.close()] does:
    if closing raises, [error] holds its message beside
    [success = true]; otherwise [error] stays [None]. *)
Theorem pymupdf_close_after_success env pdf_path doc texts :
  fitz_open env pdf_path = Return doc ->
  fitz_pages doc = Return <$> texts ->
  exists r,
    extract_with_pymupdf env pdf_path = Return r
    /\ success r = true
    /\ text r = join NL texts
    /\ error r = match fitz_close doc with
                 | Return _ => None
                 | Raise e => Some (exn_str e)
                 end.
Proof.
  intros Hopen Hpages. exists (pymupdf_result env pdf_path).
  split; [apply extract_with_pymupdf_eq|].
  destruct (read_all_ok id (fitz_pages doc) texts) as [Hok Hnone].
  { rewrite Hpages. apply Forall2_fmap_Return. }
  unfold pymupdf_result, pymupdf_read_error.
  rewrite Hopen, Hok, Hnone. cbn [success error text].
  by destruct (fitz_close doc).
Qed.

Lemma pymupdf_close_after_success_witness :
  fitz_open (env_with_fitz sample_env (fun _ => Return unclosable_doc))
    (sample_path "a.pdf") = Return unclosable_doc
  /\ fitz_pages unclosable_doc = Return <$> [U "Hello"; U "world"]
  /\ exists r,
       extract_with_pymupdf
         (env_with_fitz sample_env (fun _ => Return unclosable_doc))
         (sample_path "a.pdf") = Return r
       /\ success r = true
       /\ text r = join NL [U "Hello"; U "world"]
       /\ error r = Some (exn_str sample_exn).
Proof.
  split; [reflexivity|]. split; [reflexivity|].
  exact (pymupdf_close_after_success
           (env_with_fitz sample_env (fun _ => Return unclosable_doc))
           (sample_path "a.pdf") unclosable_doc [U "Hello"; U "world"]
           eq_refl eq_refl).
Defined.

(** ** The OCR extractor on its pages *)

(** X4. With both libraries imported and the document converted,
    [extract_with_ocr] runs the OCR on every image, with the three
    languages and the page segmentation mode of the script and under the
    command selected among the candidate locations; if every call
    returns, the result is a success without error, with one entry per
    image and the recognized texts joined by newlines. *)
Theorem ocr_reads_every_image env pdf_path images texts :
  import_pytesseract env = Return tt ->
  import_pdf2image env = Return tt ->
  convert_from_path env pdf_path = Return images ->
  Forall2
    (fun img t =>
       image_to_string env
         (select_tesseract (os_path_exists env) (tesseract_cmd env)
            tesseract_paths)
         img (U "kor+eng+rus") (U "--psm 6") = Return t)
    images texts ->
  exists r,
    extract_with_ocr env pdf_path = Return r
    /\ success r = true
    /\ error r = None
    /\ text r = join NL texts
    /\ length (pages r) = length images
    /\ page_text <$> pages r = texts.
Proof.
  intros H1 H2 Hconv Hread. exists (ocr_result env pdf_path).
  split; [apply extract_with_ocr_eq|].
  destruct (read_all_ok (ocr_read env) images texts Hread) as [Hok Hnone].
  unfold ocr_result. rewrite H1, H2, Hconv, Hok, Hnone.
  cbn [success error text pages].
  split; [done|]. split; [done|]. split; [done|]. split.
  - rewrite entries_from_length. symmetry. by eapply Forall2_length.
  - rewrite (entries_from_fmap text_entry page_text id) by done.
    apply list_fmap_id.
Qed.

Lemma ocr_reads_every_image_witness :
  import_pytesseract sample_env_ocr = Return tt
  /\ import_pdf2image sample_env_ocr = Return tt
  /\ convert_from_path sample_env_ocr (sample_path "a.pdf")
     = Return [1%N; 2%N]
  /\ Forall2
       (fun img t =>
          image_to_string sample_env_ocr
            (select_tesseract (os_path_exists sample_env_ocr)
               (tesseract_cmd sample_env_ocr) tesseract_paths)
            img (U "kor+eng+rus") (U "--psm 6") = Return t)
       [1%N; 2%N]
       [x86_tesseract ++ U " page 1"; x86_tesseract ++ U " page 2"]
  /\ exists r,
       extract_with_ocr sample_env_ocr (sample_path "a.pdf") = Return r
       /\ success r = true
       /\ error r = None
       /\ text r = join NL [x86_tesseract ++ U " page 1";
                            x86_tesseract ++ U " page 2"]
       /\ length (pages r) = length [1%N; 2%N]
       /\ page_text <$> pages r
          = [x86_tesseract ++ U " page 1"; x86_tesseract ++ U " page 2"].
Proof.
  assert (H4 : Forall2
                 (fun img t =>
                    image_to_string sample_env_ocr
                      (select_tesseract (os_path_exists sample_env_ocr)
                         (tesseract_cmd sample_env_ocr) tesseract_paths)
                      img (U "kor+eng+rus") (U "--psm 6") = Return t)
                 [1%N; 2%N]
                 [x86_tesseract ++ U " page 1"; x86_tesseract ++ U " page 2"]).
  { repeat constructor; vm_compute; reflexivity. }
  split; [reflexivity|]. split; [reflexivity|]. split; [reflexivity|].
  split; [exact H4|].
  exact (ocr_reads_every_image sample_env_ocr (sample_path "a.pdf") _ _
           eq_refl eq_refl eq_refl H4).
Defined.

(** X5. With both libraries imported and the document converted, an
    exception of the OCR call on a page makes the result a failure with
    an empty text and the entries of the pages before.  Its message is
    recorded as it is, except for an [ImportError], which gets the
    missing-library prefix. *)
Theorem ocr_keeps_pages_before_failure env pdf_path good texts bad rest e :
  import_pytesseract env = Return tt ->
  import_pdf2image env = Return tt ->
  convert_from_path env pdf_path = Return (good ++ bad :: rest) ->
  Forall2
    (fun img t =>
       image_to_string env
         (select_tesseract (os_path_exists env) (tesseract_cmd env)
            tesseract_paths)
         img (U "kor+eng+rus") (U "--psm 6") = Return t)
    good texts ->
  image_to_string env
    (select_tesseract (os_path_exists env) (tesseract_cmd env) tesseract_paths)
    bad (U "kor+eng+rus") (U "--psm 6") = Raise e ->
  exists r,
    extract_with_ocr env pdf_path = Return r
    /\ success r = false
    /\ text r = []
    /\ page_text <$> pages r = texts
    /\ error r = Some match exn_class e with
                      | ImportError =>
                        U "필요한 라이브러리가 없습니다: " ++ exn_str e
                      | OtherException => exn_str e
                      end.
Proof.
  intros H1 H2 Hconv Hgood Hbad. exists (ocr_result env pdf_path).
  split; [apply extract_with_ocr_eq|].
  destruct (read_prefix (ocr_read env) good texts bad rest e Hgood Hbad)
    as [Hok Hraise].
  unfold ocr_result. rewrite H1, H2, Hconv, Hok, Hraise.
  cbn [success error text pages].
  split; [done|]. split; [done|]. split; [|done].
  rewrite (entries_from_fmap text_entry page_text id) by done.
  apply list_fmap_id.
Qed.

Lemma ocr_keeps_pages_before_failure_witness :
  import_pytesseract sample_env_ocr_torn = Return tt
  /\ import_pdf2image sample_env_ocr_torn = Return tt
  /\ convert_from_path sample_env_ocr_torn (sample_path "a.pdf")
     = Return ([1%N] ++ 2%N :: [])
  /\ Forall2
       (fun img t =>
          image_to_string sample_env_ocr_torn
            (select_tesseract (os_path_exists sample_env_ocr_torn)
               (tesseract_cmd sample_env_ocr_torn) tesseract_paths)
            img (U "kor+eng+rus") (U "--psm 6") = Return t)
       [1%N] [x86_tesseract]
  /\ image_to_string sample_env_ocr_torn
       (select_tesseract (os_path_exists sample_env_ocr_torn)
          (tesseract_cmd sample_env_ocr_torn) tesseract_paths)
       2%N (U "kor+eng+rus") (U "--psm 6") = Raise sample_exn
  /\ exists r,
       extract_with_ocr sample_env_ocr_torn (sample_path "a.pdf") = Return r
       /\ success r = false
       /\ text r = []
       /\ page_text <$> pages r = [x86_tesseract]
       /\ error r = Some match exn_class sample_exn with
                         | ImportError =>
                           U "필요한 라이브러리가 없습니다: "
                           ++ exn_str sample_exn
                         | OtherException => exn_str sample_exn
                         end.
Proof.
  assert (H4 : Forall2
                 (fun img t =>
                    image_to_string sample_env_ocr_torn
                      (select_tesseract (os_path_exists sample_env_ocr_torn)
                         (tesseract_cmd sample_env_ocr_torn) tesseract_paths)
                      img (U "kor+eng+rus") (U "--psm 6") = Return t)
                 [1%N] [x86_tesseract])
    by (repeat constructor; vm_compute; reflexivity).
  assert (H5 : image_to_string sample_env_ocr_torn
                 (select_tesseract (os_path_exists sample_env_ocr_torn)
                    (tesseract_cmd sample_env_ocr_torn) tesseract_paths)
                 2%N (U "kor+eng+rus") (U "--psm 6") = Raise sample_exn)
    by reflexivity.
  split; [reflexivity|]. split; [reflexivity|]. split; [reflexivity|].
  split; [exact H4|]. split; [exact H5|].
  exact (ocr_keeps_pages_before_failure sample_env_ocr_torn
           (sample_path "a.pdf") [1%N] [x86_tesseract] 2%N [] sample_exn
           eq_refl eq_refl eq_refl H4 H5).
Defined.

(** ** The tables of pdfplumber *)

Lemma entries_from_elem {B : Type} (mk : nat -> B -> PageEntry) start ys pe :
  pe ∈ entries_from mk start ys
  <-> exists i y, ys !! i = Some y /\ pe = mk (start + i) y.
Proof.
  revert start. induction ys as [|y ys IH]; intros start; simpl.
  - split; [by intros ?%elem_of_nil|by intros (i & z & ? & _)].
  - rewrite elem_of_cons, IH. split.
    + intros [->|(i & z & Hz & ->)].
      * exists 0, y. by rewrite Nat.add_0_r.
      * exists (S i), z. by rewrite Nat.add_succ_r.
    + intros ([|i] & z & Hz & ->); simpl in Hz.
      * left. injection Hz as ->. by rewrite Nat.add_0_r.
      * right. exists i, z. by rewrite Nat.add_succ_r.
Qed.

Lemma table_entries_from_elem start (rds : list (str * list table)) te :
  te ∈ table_entries_from start rds
  <-> exists i rd,
        rds !! i = Some rd /\ rd.2 <> []
        /\ te = {| tables_page := start + i + 1; tables_found := rd.2 |}.
Proof.
  revert start. induction rds as [|[t tbs] rds IH]; intros start.
  - simpl. split; [by intros ?%elem_of_nil|by intros (i & z & ? & _)].
  - assert (Hshift : te ∈ table_entries_from (S start) rds
                     <-> exists i rd,
                           ((t, tbs) :: rds) !! S i = Some rd /\ rd.2 <> []
                           /\ te = {| tables_page := start + S i + 1;
                                      tables_found := rd.2 |}).
    { rewrite IH.
      split; intros (i & rd & Hrd & Hne & ->); exists i, rd;
        (split; [exact Hrd|]; split; [done|]; f_equal; lia). }
    destruct tbs as [|tb tbs]; cbn [table_entries_from].
    + rewrite Hshift. split.
      * intros (i & rd & H). by exists (S i), rd.
      * intros ([|i] & rd & Hrd & Hne & Hte); [|by exists i, rd].
        injection Hrd as <-. done.
    + rewrite elem_of_cons, Hshift. split.
      * intros [->|(i & rd & H)]; [|by exists (S i), rd].
        exists 0, (t, tb :: tbs). by rewrite Nat.add_0_r.
      * intros ([|i] & rd & Hrd & Hne & Hte); [|right; by exists i, rd].
        left. injection Hrd as <-. by rewrite Nat.add_0_r in Hte.
Qed.

(** X6. In every result of [extract_with_pdfplumber], [tables] lists
    exactly the pages recorded with at least one table: each entry of
    [tables] holds a non-empty list of tables and carries the number of
    a page entry whose [table_count] is the length of that list, and
    each page entry with a positive [table_count] has its entry in
    [tables]. *)
Theorem pdfplumber_tables_match_pages env pdf_path r :
  extract_with_pdfplumber env pdf_path = Return r ->
  exists ts,
    tables r = Some ts
    /\ (forall te,
          te ∈ ts ->
          tables_found te <> []
          /\ exists pe,
               pe ∈ pages r /\ page pe = tables_page te
               /\ table_count pe = Some (length (tables_found te)))
    /\ (forall pe n,
          pe ∈ pages r -> table_count pe = Some (S n) ->
          exists te,
            te ∈ ts /\ tables_page te = page pe
            /\ length (tables_found te) = S n).
Proof.
  rewrite extract_with_pdfplumber_eq. intros [= <-].
  unfold pdfplumber_result. cbn [tables pages].
  eexists. split; [done|]. split.
  - intros te (i & rd & Hrd & Hne & ->)%table_entries_from_elem.
    split; [done|]. exists (plumber_entry i rd). split; [|done].
    apply entries_from_elem. by exists i, rd.
  - intros pe n (i & rd & Hrd & ->)%entries_from_elem Hcount.
    cbn in Hcount. injection Hcount as Hlen.
    exists {| tables_page := 0 + i + 1; tables_found := rd.2 |}.
    split; [|done]. apply table_entries_from_elem. exists i, rd.
    split; [done|]. split; [|done]. intros Hnil. by rewrite Hnil in Hlen.
Qed.

Lemma pdfplumber_tables_match_pages_witness :
  extract_with_pdfplumber
    (env_with_plumber sample_env (fun _ => Return tabled_pages))
    (sample_path "a.pdf")
  = Return (pdfplumber_result
              (env_with_plumber sample_env (fun _ => Return tabled_pages))
              (sample_path "a.pdf"))
  /\ tables (pdfplumber_result
               (env_with_plumber sample_env (fun _ => Return tabled_pages))
               (sample_path "a.pdf"))
     = Some [ {| tables_page := 1;
                 tables_found := [ [[Some (U "A"); None]] ] |} ]
  /\ exists ts,
       tables (pdfplumber_result
                 (env_with_plumber sample_env (fun _ => Return tabled_pages))
                 (sample_path "a.pdf")) = Some ts
       /\ (forall te,
             te ∈ ts ->
             tables_found te <> []
             /\ exists pe,
                  pe ∈ pages (pdfplumber_result
                                (env_with_plumber sample_env
                                   (fun _ => Return tabled_pages))
                                (sample_path "a.pdf"))
                  /\ page pe = tables_page te
                  /\ table_count pe = Some (length (tables_found te)))
       /\ (forall pe n,
             pe ∈ pages (pdfplumber_result
                           (env_with_plumber sample_env
                              (fun _ => Return tabled_pages))
                           (sample_path "a.pdf")) ->
             table_count pe = Some (S n) ->
             exists te,
               te ∈ ts /\ tables_page te = page pe
               /\ length (tables_found te) = S n).
Proof.
  assert (H1 : extract_with_pdfplumber
                 (env_with_plumber sample_env (fun _ => Return tabled_pages))
                 (sample_path "a.pdf")
               = Return (pdfplumber_result
                           (env_with_plumber sample_env
                              (fun _ => Return tabled_pages))
                           (sample_path "a.pdf")))
    by (vm_compute; reflexivity).
  split; [exact H1|]. split; [vm_compute; reflexivity|].
  exact (pdfplumber_tables_match_pages
           (env_with_plumber sample_env (fun _ => Return tabled_pages))
           (sample_path "a.pdf") _ H1).
Defined.

(** ** Text and pages of a success *)

Lemma len_join_NL (l : list str) :
  len (join NL l) = sum_list (len <$> l) + (length l - 1).
Proof.
  unfold len. induction l as [|p [|q l] IH]; [done| |].
  - simpl. lia.
  - change (join NL (p :: q :: l)) with (p ++ NL ++ join NL (q :: l)).
    rewrite !length_app, IH. simpl. lia.
Qed.

(** X7. In a successful result of any of the three extractors, the full
    text is the texts of the page entries joined by newlines, so its
    length is the sum of their [char_count]s plus one separator between
    consecutive pages. *)
Theorem success_text_matches_pages env pdf_path r :
  extract_with_pymupdf env pdf_path = Return r
  \/ extract_with_pdfplumber env pdf_path = Return r
  \/ extract_with_ocr env pdf_path = Return r ->
  success r = true ->
  text r = join NL (page_text <$> pages r)
  /\ len (text r)
     = sum_list (char_count <$> pages r) + (length (pages r) - 1).
Proof.
  assert (Hgen : forall (B : Type) (mk : nat -> B -> PageEntry)
                   (f : B -> str) (ys : list B),
            (forall i y, page_text (mk i y) = f y) ->
            (forall i y, char_count (mk i y) = len (f y)) ->
            join NL (f <$> ys) = join NL (page_text <$> entries_from mk 0 ys)
            /\ len (join NL (f <$> ys))
               = sum_list (char_count <$> entries_from mk 0 ys)
                 + (length (entries_from mk 0 ys) - 1)).
  { intros B mk f ys Ht Hc.
    rewrite (entries_from_fmap mk page_text f) by done.
    rewrite (entries_from_fmap mk char_count (len ∘ f)) by done.
    rewrite entries_from_length, len_join_NL, length_fmap.
    by rewrite <- list_fmap_compose. }
  rewrite extract_with_pymupdf_eq, extract_with_pdfplumber_eq,
    extract_with_ocr_eq.
  intros [[= <-]|[[= <-]|[= <-]]].
  - unfold pymupdf_result. cbn [success text pages].
    destruct (pymupdf_read_error env pdf_path); [done|]. intros _.
    rewrite <- (list_fmap_id (match fitz_open env pdf_path with
                              | Return doc => read_ok id (fitz_pages doc)
                              | Raise _ => []
                              end)) at 1 3.
    by apply Hgen.
  - unfold pdfplumber_result. cbn [success text pages].
    destruct (pdfplumber_read_error env pdf_path); [done|]. intros _.
    by apply (Hgen _ plumber_entry fst).
  - unfold ocr_result.
    destruct (import_pytesseract env); [|done].
    destruct (import_pdf2image env); [|done].
    destruct (convert_from_path env pdf_path) as [images|]; [|done].
    destruct (first_raise (ocr_read env) images); [done|].
    cbn [success text pages]. intros _.
    rewrite <- (list_fmap_id (read_ok (ocr_read env) images)) at 1 3.
    by apply Hgen.
Qed.

Lemma success_text_matches_pages_witness :
  extract_with_pymupdf sample_env (sample_path "a.pdf")
  = Return (pymupdf_result sample_env (sample_path "a.pdf"))
  /\ success (pymupdf_result sample_env (sample_path "a.pdf")) = true
  /\ text (pymupdf_result sample_env (sample_path "a.pdf"))
     = join NL (page_text <$> pages (pymupdf_result sample_env
                                        (sample_path "a.pdf")))
  /\ len (text (pymupdf_result sample_env (sample_path "a.pdf")))
     = sum_list (char_count <$> pages (pymupdf_result sample_env
                                          (sample_path "a.pdf")))
       + (length (pages (pymupdf_result sample_env (sample_path "a.pdf"))) - 1).
Proof.
  assert (H1 : extract_with_pymupdf sample_env (sample_path "a.pdf")
               = Return (pymupdf_result sample_env (sample_path "a.pdf")))
    by (vm_compute; reflexivity).
  assert (H2 : success (pymupdf_result sample_env (sample_path "a.pdf")) = true)
    by (vm_compute; reflexivity).
  split; [exact H1|]. split; [exact H2|].
  exact (success_text_matches_pages sample_env (sample_path "a.pdf") _
           (or_introl H1) H2).
Defined.

(** ** The events of the Persister *)




Lemma sample_scan_encodable m r :
  (m, r) ∈ results_for sample_env (sample_path "c.pdf") ->
  success r = true -> strip (text r) <> [] ->
  encodable (method r) = true /\ encodable (text r) = true.
Proof.
  unfold results_for.
  intros [[= -> ->]|[[= -> ->]|[]%elem_of_nil]%elem_of_cons]%elem_of_cons _ _;
    by vm_compute.
Qed.





Lemma Forall_created_dirs (ok : event -> Prop) (P : Path -> Prop) new :
  (forall p, ok (Mkdir p) -> P p) ->
  Forall ok new -> Forall P (created_dirs new).
Proof.
  intros HP Hok. induction Hok as [|ev new Hev _ IH]; [constructor|].
  rewrite created_dirs_cons. destruct ev; [done| |done].
  constructor; [by apply HP|done].
Qed.

Lemma Forall_written (ok : event -> Prop) (P : Path -> Prop) new :
  (forall p c, ok (WriteFile p c) -> P p) ->
  Forall ok new -> Forall P (written new).
Proof.
  intros HP Hok. induction Hok as [|ev new Hev _ IH]; [constructor|].
  rewrite written_cons. destruct ev; [done|done|].
  constructor; [by eapply HP|done].
Qed.



(** X19. Whether [save_results] returns or raises, and whatever the
    file system answers, it creates no directory but the output
    directory, and every file it opens for writing is the file of an
    entry of the dict with [success = true] and a text that is not
    blank: a failed or empty result never gets a file. *)
Theorem save_results_writes_only_qualifying env pdf_name
  (results : dict ExtractionResult) output_dir w :
  exists new,
    events (save_results env pdf_name results output_dir w).2
    = events w ++ new
    /\ Forall (fun d => d = output_dir) (created_dirs new)
    /\ Forall
         (fun p =>
            exists m r,
              (m, r) ∈ results /\ success r = true /\ strip (text r) <> []
              /\ p = output_file output_dir pdf_name m)
         (written new).
Proof.
  destruct (save_results_confined env pdf_name results output_dir w)
    as (new & Hev & Hok).
  exists new. split; [exact Hev|]. split.
  - eapply Forall_created_dirs; [|exact Hok]. by intros p.
  - eapply Forall_written; [|exact Hok].
    intros p c (m & r & Hin & [Hs Ht]%qualifies_true & ->). by exists m, r.
Qed.

(** ** The Comparator *)

(** X11. A failed result of any of the three extractors carries a
    message: [error] is never [None] when [success] is false, so the
    status line of the Comparator always names the cause. *)
Theorem failed_result_has_message env pdf_path r :
  extract_with_pymupdf env pdf_path = Return r
  \/ extract_with_pdfplumber env pdf_path = Return r
  \/ extract_with_ocr env pdf_path = Return r ->
  success r = false ->
  exists msg,
    error r = Some msg /\ status_of r = U "✗ 실패: " ++ msg.
Proof.
  rewrite extract_with_pymupdf_eq, extract_with_pdfplumber_eq,
    extract_with_ocr_eq.
  intros Hr Hfail.
  assert (Herr : exists msg, error r = Some msg).
  { destruct Hr as [[= <-]|[[= <-]|[= <-]]]; revert Hfail.
    - unfold pymupdf_result. cbn [success error].
      destruct (pymupdf_read_error env pdf_path); [by eexists|done].
    - unfold pdfplumber_result. cbn [success error].
      destruct (pdfplumber_read_error env pdf_path); [by eexists|done].
    - unfold ocr_result.
      destruct (import_pytesseract env); [|by eexists].
      destruct (import_pdf2image env); [|by eexists].
      destruct (convert_from_path env pdf_path) as [images|]; [|by eexists].
      destruct (first_raise (ocr_read env) images); [by eexists|done]. }
  destruct Herr as [msg Hmsg]. exists msg. split; [done|].
  unfold status_of. by rewrite Hfail, Hmsg.
Qed.

Lemma failed_result_has_message_witness :
  extract_with_pymupdf sample_env (sample_path "b.pdf")
  = Return (pymupdf_result sample_env (sample_path "b.pdf"))
  /\ success (pymupdf_result sample_env (sample_path "b.pdf")) = false
  /\ exists msg,
       error (pymupdf_result sample_env (sample_path "b.pdf")) = Some msg
       /\ status_of (pymupdf_result sample_env (sample_path "b.pdf"))
          = U "✗ 실패: " ++ msg.
Proof.
  assert (H1 : extract_with_pymupdf sample_env (sample_path "b.pdf")
               = Return (pymupdf_result sample_env (sample_path "b.pdf")))
    by (vm_compute; reflexivity).
  assert (H2 : success (pymupdf_result sample_env (sample_path "b.pdf")) = false)
    by (vm_compute; reflexivity).
  split; [exact H1|]. split; [exact H2|].
  exact (failed_result_has_message sample_env (sample_path "b.pdf") _
           (or_introl H1) H2).
Defined.

(** X12. [compare_methods] runs the two text-layer extractors and
    returns their results under the keys [pymupdf] and [pdfplumber], in
    that order and no other key.  Its only effect is to print nine
    lines, the last two being the count and status of the two results:
    it creates nothing, writes nothing and does not read the clock. *)
Theorem compare_methods_only_prints env pdf_path w :
  exists w' rA rB lines,
    extract_with_pymupdf env pdf_path = Return rA
    /\ extract_with_pdfplumber env pdf_path = Return rB
    /\ compare_methods env pdf_path w
       = (Return [(U "pymupdf", rA); (U "pdfplumber", rB)], w')
    /\ clock w' = clock w
    /\ drop (length (events w)) (events w') = Print <$> lines
    /\ length lines = 9
    /\ drop 7 lines
       = [ U "    - " ++ method rA ++ U ": " ++ format_comma (len (text rA))
           ++ U "자 추출 " ++ status_of rA;
           U "    - " ++ method rB ++ U ": " ++ format_comma (len (text rB))
           ++ U "자 추출 " ++ status_of rB ].
Proof.
  eassert (Hrun : runs (compare_methods env pdf_path) w _ _ _).
  { unfold compare_methods.
    rewrite extract_with_pymupdf_eq, extract_with_pdfplumber_eq.
    do 9 run_stmt. rewrite results_for_dict. cbn [for_each]. do 3 run_stmt. }
  eexists _, (pymupdf_result env pdf_path), (pdfplumber_result env pdf_path),
    [_; _; _; _; _; _; _; _; _].
  split; [apply extract_with_pymupdf_eq|].
  split; [apply extract_with_pdfplumber_eq|].
  split; [exact Hrun|]. cbn [events clock]. rewrite drop_app_length.
  split; [by rewrite !Nat.add_0_r|]. by repeat split.
Qed.

(** ** The files of a whole run *)



(** The files of the sample run. *)
Example main_sample_files :
  written (events (main sample_env world0).2)
  = [ [U "추출결과"; U "a_pymupdf.txt"]; [U "추출결과"; U "비교_요약.txt"] ].
Proof. vm_compute. reflexivity. Qed.

(** On a machine where PyMuPDF reads a lone surrogate, the run stops
    in the Persister of the first file: one file is left with its
    header, and no summary is written. *)
Example main_sample_surrogate :
  (main sample_env_surrogate world0).1
  = Raise (unicode_encode_error [55296%N])
  /\ written (events (main sample_env_surrogate world0).2)
     = [[U "추출결과"; U "a_pymupdf.txt"]].
Proof. split; vm_compute; reflexivity. Qed.

Lemma output_dir_is_not_input_dir name name' :
  Path_div OUTPUT_DIR name <> Path_div PDF_DIR name'.
Proof.
  unfold Path_div, OUTPUT_DIR, PDF_DIR. cbn [app]. intros H.
  assert (Hd : U "추출결과" = U "참고자료") by congruence.
  vm_compute in Hd. discriminate Hd.
Qed.

(** X14. Whether [main] returns or raises, whatever it finds and
    whatever the file system answers, it keeps to the output
    directory: it creates no directory but that one and opens no file
    for writing outside it; in particular it never writes to a file of
    the input directory. *)
Theorem main_touches_only_output_dir env w :
  exists new,
    events (main env w).2 = events w ++ new
    /\ Forall (fun d => d = OUTPUT_DIR) (created_dirs new)
    /\ Forall (fun p => exists name, p = Path_div OUTPUT_DIR name)
         (written new)
    /\ Forall (fun p => forall name, p <> Path_div PDF_DIR name)
         (written new).
Proof.
  destruct (main_confined env w) as (new & Hev & Hok).
  assert (Hw : Forall (fun p => exists name, p = Path_div OUTPUT_DIR name)
                 (written new)).
  { eapply Forall_written; [|exact Hok]. by intros p c. }
  exists new. split; [exact Hev|]. split; [|split; [exact Hw|]].
  - eapply Forall_created_dirs; [|exact Hok]. by intros p.
  - eapply Forall_impl; [exact Hw|].
    intros p [name ->] name'. apply output_dir_is_not_input_dir.
Qed.



(** X20. When the scan finds files and the output directory cannot be
    created (its path is the path of a regular file, say), [main]
    stops with the exception of [OUTPUT_DIR.mkdir(exist_ok=True)]: it
    has printed the banner and the number of files found and done
    nothing else, so nothing is created or written, the summary
    included, and the clock is not read. *)
Theorem main_stops_without_output_dir env w e :
  PDF_DIR_exists env = true ->
  PDF_DIR_glob env <> [] ->
  (forall evs, fs_reply w evs (Request_mkdir OUTPUT_DIR) = Raise e) ->
  exists w',
    main env w = (Raise e, w')
    /\ drop (length (events w)) (events w')
       = [ Print (NL ++ times (U "=") 60);
           Print (U "PDF 텍스트 추출기 - 방법 비교");
           Print (times (U "=") 60);
           Print (NL ++ U "총 " ++ str_of_int (length (PDF_DIR_glob env))
                  ++ U "개의 PDF 파일 발견") ]
    /\ clock w' = clock w.
Proof.
  intros Hex Hne Hmk. unfold main. rewrite Hex. cbn [negb].
  destruct (PDF_DIR_glob env) as [|name names] eqn:Hglob; [done|].
  cbn [map]. cbv zeta.
  eexists. split.
  { do 4 (eapply runs_then; [apply runs_print|];
          cbn [events clock fs_reply]).
    apply bind_raise, mkdir_raise. cbn [events clock fs_reply]. apply Hmk. }
  cbn [events clock]. split; [|lia].
  rewrite <- !(app_assoc (events w)), drop_app_length.
  cbn [app length]. by rewrite length_map.
Qed.

Lemma main_stops_without_output_dir_witness :
  PDF_DIR_exists sample_env = true
  /\ PDF_DIR_glob sample_env <> []
  /\ (forall evs,
        fs_reply world_output_taken evs (Request_mkdir OUTPUT_DIR)
        = Raise file_exists_error)
  /\ exists w',
       main sample_env world_output_taken = (Raise file_exists_error, w')
       /\ drop (length (events world_output_taken)) (events w')
          = [ Print (NL ++ times (U "=") 60);
              Print (U "PDF 텍스트 추출기 - 방법 비교");
              Print (times (U "=") 60);
              Print (NL ++ U "총 "
                     ++ str_of_int (length (PDF_DIR_glob sample_env))
                     ++ U "개의 PDF 파일 발견") ]
       /\ clock w' = clock world_output_taken.
Proof.
  assert (H1 : PDF_DIR_exists sample_env = true) by reflexivity.
  assert (H2 : PDF_DIR_glob sample_env <> []) by (intros H; discriminate H).
  assert (H3 : forall evs,
            fs_reply world_output_taken evs (Request_mkdir OUTPUT_DIR)
            = Raise file_exists_error) by reflexivity.
  split; [exact H1|]. split; [exact H2|]. split; [exact H3|].
  exact (main_stops_without_output_dir sample_env world_output_taken
           file_exists_error H1 H2 H3).
Defined.

(** ** The width of the summary rows *)

(** X16. The name column of a row is exactly 50 characters wide for
    every file name, long or short, and keeps the first 47 characters of
    the name; each count column is at least 12 wide, so a row has at
    least 77 characters, newline included, and exactly 77 when both
    counts fit in 12 characters. *)
Theorem summary_row_width pdf_name results :
  len (ljust 50 (short_name pdf_name)) = 50
  /\ take 47 (ljust 50 (short_name pdf_name)) = take 47 (ljust 50 pdf_name)
  /\ len (summary_row pdf_name results)
     = 50 + 1
       + max 12 (len (format_comma (len (text_of results (U "pymupdf")))))
       + 1
       + max 12 (len (format_comma (len (text_of results (U "pdfplumber")))))
       + 1.
Proof.
  assert (Hshort : len (short_name pdf_name) <= 50).
  { unfold short_name, slice_to, len.
    destruct (50 <? length pdf_name) eqn:Hlong.
    - apply Nat.ltb_lt in Hlong.
      rewrite length_app, length_take_le by lia. vm_compute. lia.
    - by apply Nat.ltb_ge in Hlong. }
  assert (Hljust : forall s, len s <= 50 -> len (ljust 50 s) = 50).
  { intros s Hs. unfold ljust, len in *.
    rewrite length_app, length_replicate. lia. }
  assert (Hrjust : forall s, len (rjust 12 s) = max 12 (len s)).
  { intros s. unfold rjust, len.
    rewrite length_app, length_replicate. lia. }
  split; [by apply Hljust|]. split.
  - unfold short_name, slice_to, ljust, len.
    destruct (50 <? length pdf_name) eqn:Hlong.
    + apply Nat.ltb_lt in Hlong.
      rewrite !take_app_le by (rewrite ?length_app, ?length_take_le; lia).
      rewrite take_take. by rewrite Nat.min_id.
    + done.
  - unfold summary_row. unfold len at 1.
    rewrite !length_app. fold (len (ljust 50 (short_name pdf_name))).
    rewrite (Hljust _ Hshort).
    fold (len (rjust 12 (format_comma (len (text_of results (U "pymupdf")))))).
    fold (len (rjust 12 (format_comma (len (text_of results (U "pdfplumber")))))).
    rewrite !Hrjust. change (length (U " ")) with 1. change (length NL) with 1.
    lia.
Qed.

(** ** Names without the extension *)

Lemma startswith_app s pre :
  startswith s pre = true -> exists rest, s = pre ++ rest.
Proof.
  revert s. induction pre as [|p pre IH]; intros s; [by exists s|].
  destruct s as [|c s]; simpl; [done|].
  intros [Hc Hs]%andb_true_iff. apply N.eqb_eq in Hc as ->.
  destruct (IH s Hs) as [rest ->]. by exists rest.
Qed.

Lemma replace_absent old new s :
  (forall a b, s <> a ++ old ++ b) ->
  replace s old new = s.
Proof.
  unfold replace.
  induction s as [|c s IH]; intros Hfree; [done|].
  cbn [replace_from].
  destruct (startswith (c :: s) old) eqn:Hpre.
  - apply startswith_app in Hpre as [rest Hrest].
    by destruct (Hfree [] rest).
  - f_equal. apply IH. intros a b ->. by apply (Hfree (c :: a) b).
Qed.

Lemma occurs_false old s :
  occurs old s = false -> forall a b, s <> a ++ old ++ b.
Proof.
  assert (Hstart : forall rest, startswith (old ++ rest) old = true).
  { intros rest. induction old as [|p old IH]; [by destruct rest|].
    simpl. by rewrite N.eqb_refl, IH. }
  induction s as [|c s IH]; intros Hocc a b Heq.
  - by destruct a, old.
  - cbn [occurs] in Hocc. apply orb_false_iff in Hocc as [Hpre Hocc].
    destruct a as [|c' a].
    + rewrite Heq in Hpre. cbn [app] in Hpre. by rewrite Hstart in Hpre.
    + injection Heq as -> ->. by apply (IH Hocc a b).
Qed.

(** X17. A name in which [.pdf] does not occur, such as one with the
    extension in capitals that a case-insensitive scan matches, is
    used whole: the output file is [<name>_<method>.txt], extension
    included. *)
Theorem output_file_keeps_other_extension output_dir pdf_name method_name :
  (forall a b, pdf_name <> a ++ U ".pdf" ++ b) ->
  output_file output_dir pdf_name method_name
  = Path_div output_dir (pdf_name ++ U "_" ++ method_name ++ U ".txt").
Proof.
  intros Hfree. unfold output_file, output_name.
  by rewrite replace_absent.
Qed.

Lemma output_file_keeps_other_extension_witness :
  (forall a b, U "SCAN.PDF" <> a ++ U ".pdf" ++ b)
  /\ output_file OUTPUT_DIR (U "SCAN.PDF") (U "pymupdf")
     = Path_div OUTPUT_DIR (U "SCAN.PDF" ++ U "_" ++ U "pymupdf" ++ U ".txt").
Proof.
  assert (H : forall a b, U "SCAN.PDF" <> a ++ U ".pdf" ++ b).
  { apply occurs_false. vm_compute. reflexivity. }
  split; [exact H|].
  exact (output_file_keeps_other_extension OUTPUT_DIR (U "SCAN.PDF")
           (U "pymupdf") H).
Defined.
